(** * Grocer backend: the list-state reconciliation engine

    A shallow embedding of [ListOrganizationAgent.py] (state store, merge
    engine, aisle sequencer, item mutators) and of the part of [main.py]
    that feeds categorized items to it, followed by the properties of the
    specification that concern them.

    Modelling conventions.
    - A Python [str] is a [string]; [PyStr.lower] is the ASCII case
      folding (characters outside [A-Z] are left alone), which is what
      [str.lower] does on a name made of ASCII characters.  A statement
      that would not carry over to other names says so by asking for
      [PyStr.is_ascii] names.
    - A Python [dict] is an association list in insertion order with the
      update discipline of a dict: assigning to a present key keeps its
      position, assigning to a new key appends it.
    - The text layer of the [json] module is not modelled: the state file
      is absent, cannot be opened, cannot be decoded as text, holds text
      that [json.load] rejects, or holds the value [json.load] decodes;
      [json.dump] stores the value it is given, and writing the file is
      taken to succeed.
    - An exception is a value of [exn]; fallible code returns [result]. *)

From Stdlib Require Import List String Ascii Bool Arith ZArith QArith Lia.
From Stdlib Require Import Permutation Sorted.
Import ListNotations.
Open Scope string_scope.
Open Scope nat_scope.
Open Scope list_scope.

Set Implicit Arguments.
Set Warnings "-register-all".

(** ** Python strings *)

Module PyStr.

Definition is_upper (c : ascii) : bool :=
  let n := nat_of_ascii c in (65 <=? n) && (n <=? 90).

Definition lower_char (c : ascii) : ascii :=
  if is_upper c then ascii_of_nat (nat_of_ascii c + 32) else c.

(** A string of ASCII characters, on which [lower] below is Python's
    [str.lower]. *)
Fixpoint is_ascii (s : string) : bool :=
  match s with
  | EmptyString => true
  | String c s' => (nat_of_ascii c <? 128) && is_ascii s'
  end.

(** [s.lower()] *)
Fixpoint lower (s : string) : string :=
  match s with
  | EmptyString => EmptyString
  | String c s' => String (lower_char c) (lower s')
  end.

(** Whitespace as [str.strip()] sees it in ASCII text. *)
Definition is_space (c : ascii) : bool :=
  let n := nat_of_ascii c in
  ((9 <=? n) && (n <=? 13)) || ((28 <=? n) && (n <=? 32)).

Fixpoint lstrip (s : string) : string :=
  match s with
  | EmptyString => EmptyString
  | String c s' => if is_space c then lstrip s' else s
  end.

Fixpoint rstrip (s : string) : string :=
  match s with
  | EmptyString => EmptyString
  | String c s' =>
      match rstrip s' with
      | EmptyString => if is_space c then EmptyString else String c EmptyString
      | r => String c r
      end
  end.

(** [s.strip()] *)
Definition strip (s : string) : string := rstrip (lstrip s).

(** [a.lower() == b.lower()] *)
Definition same_lower (a b : string) : bool := String.eqb (lower a) (lower b).

End PyStr.

(** ** Python dicts with string keys, in insertion order *)

Module PyDict.
Section Ops.
Variable V : Type.

Definition t := list (string * V).

(** [d.keys()], [d.values()] *)
Definition keys (d : t) : list string := map fst d.
Definition values (d : t) : list V := map snd d.

(** [d.get(k)] *)
Fixpoint get (k : string) (d : t) : option V :=
  match d with
  | [] => None
  | (k', v) :: d' => if String.eqb k k' then Some v else get k d'
  end.

(** [k in d] *)
Definition contains (k : string) (d : t) : bool :=
  match get k d with Some _ => true | None => false end.

(** [d[k] = v] *)
Fixpoint set (k : string) (v : V) (d : t) : t :=
  match d with
  | [] => [(k, v)]
  | (k', v') :: d' =>
      if String.eqb k k' then (k', v) :: d' else (k', v') :: set k v d'
  end.

(** [del d[k]] for a key that is present *)
Fixpoint del (k : string) (d : t) : t :=
  match d with
  | [] => []
  | (k', v') :: d' => if String.eqb k k' then d' else (k', v') :: del k d'
  end.

(** [dict(pairs)] *)
Definition of_pairs (l : list (string * V)) : t :=
  fold_left (fun d kv => set (fst kv) (snd kv) d) l [].

(** What makes an association list a dict: no key occurs twice. *)
Definition wf (d : t) : Prop := NoDup (keys d).

End Ops.
End PyDict.

(** ** Exceptions and results *)

Inductive exn : Type :=
| AttributeError
| TypeError
| KeyError
| ValidationError
| JSONDecodeError
| FileNotFoundError
| OSError
| UnicodeDecodeError.

Inductive result (A : Type) : Type :=
| Ok (a : A)
| Raise (e : exn).
Arguments Ok {A} a.
Arguments Raise {A} e.

Definition bind {A B} (r : result A) (k : A -> result B) : result B :=
  match r with
  | Ok a => k a
  | Raise e => Raise e
  end.

Declare Scope py_scope.
Notation "x <- c ;; k" := (bind c (fun x => k))
  (at level 61, c at next level, right associativity) : py_scope.
Open Scope py_scope.

(** [[f(x) for x in l]] for a fallible [f]: the first failure aborts. *)
Fixpoint mapM {A B} (f : A -> result B) (l : list A) : result (list B) :=
  match l with
  | [] => Ok []
  | x :: l' => y <- f x ;; ys <- mapM f l' ;; Ok (y :: ys)
  end.

Definition is_ok {A} (r : result A) : bool :=
  match r with Ok _ => true | Raise _ => false end.

(** ** Python values as [json] decodes them *)

Inductive pyval : Type :=
| PNone
| PBool (b : bool)
| PInt (z : Z)
| PFloat (q : Q)
| PStr (s : string)
| PList (l : list pyval)
| PDict (d : list (string * pyval)).

(** [for x in v]: the elements a [for] loop over [v] visits, or the
    [TypeError] of a value that is not iterable. *)
Definition py_iter (v : pyval) : result (list pyval) :=
  match v with
  | PList l => Ok l
  | PDict d => Ok (map (fun kv => PStr (fst kv)) d)
  | PStr s => Ok (map (fun c => PStr (String c EmptyString)) (list_ascii_of_string s))
  | _ => Raise TypeError
  end.

(** ** GroceryItem *)

Module GroceryItem.

Record t : Type := {
  id : string;
  name : string;
  aisle : string;
  quantity : option string;
  quantity_unit : option string;
  checked : bool
}.

(** A required [str] field. *)
Definition validate_str (v : option pyval) : result string :=
  match v with
  | Some (PStr s) => Ok s
  | _ => Raise ValidationError
  end.

(** An [Optional[str] = None] field. *)
Definition validate_opt_str (v : option pyval) : result (option string) :=
  match v with
  | None => Ok None
  | Some PNone => Ok None
  | Some (PStr s) => Ok (Some s)
  | _ => Raise ValidationError
  end.

Definition str_false : list string := ["f"; "n"; "no"; "off"; "false"].
Definition str_true : list string := ["t"; "y"; "on"; "yes"; "true"].

(** A [bool = False] field, validated in pydantic's lax mode: besides
    a bool, the integers and floats 0 and 1 and a few words pass. *)
Definition validate_bool (v : option pyval) : result bool :=
  match v with
  | None => Ok false
  | Some (PBool b) => Ok b
  | Some (PStr s) =>
      if String.eqb s "0" || existsb (String.eqb (PyStr.lower s)) str_false
      then Ok false
      else if String.eqb s "1" || existsb (String.eqb (PyStr.lower s)) str_true
      then Ok true
      else Raise ValidationError
  | Some (PInt z) =>
      if Z.eqb z 0 then Ok false
      else if Z.eqb z 1 then Ok true
      else Raise ValidationError
  | Some (PFloat q) =>
      if Qeq_bool q 0 then Ok false
      else if Qeq_bool q 1 then Ok true
      else Raise ValidationError
  | _ => Raise ValidationError
  end.

(** The constructor called with the keyword arguments [d]; keys that
    name no field are ignored. *)
Definition of_kwargs (d : PyDict.t pyval) : result t :=
  i <- validate_str (PyDict.get "id" d) ;;
  n <- validate_str (PyDict.get "name" d) ;;
  a <- validate_str (PyDict.get "aisle" d) ;;
  q <- validate_opt_str (PyDict.get "quantity" d) ;;
  u <- validate_opt_str (PyDict.get "quantity_unit" d) ;;
  c <- validate_bool (PyDict.get "checked" d) ;;
  Ok {| id := i; name := n; aisle := a;
        quantity := q; quantity_unit := u; checked := c |}.

(** The constructor called with [v] unpacked as keyword arguments:
    [v] must be a mapping. *)
Definition new (v : pyval) : result t :=
  match v with
  | PDict d => of_kwargs d
  | _ => Raise TypeError
  end.

Definition opt_str (o : option string) : pyval :=
  match o with
  | Some s => PStr s
  | None => PNone
  end.

(** [item.dict()] *)
Definition dict (item : t) : PyDict.t pyval :=
  [ ("id", PStr (id item));
    ("name", PStr (name item));
    ("aisle", PStr (aisle item));
    ("quantity", opt_str (quantity item));
    ("quantity_unit", opt_str (quantity_unit item));
    ("checked", PBool (checked item)) ].

Definition eqb_opt (a b : option string) : bool :=
  match a, b with
  | Some x, Some y => String.eqb x y
  | None, None => true
  | _, _ => false
  end.

End GroceryItem.

Definition ListState : Type := PyDict.t (list GroceryItem.t).

(** The state file: absent; there, but not to be opened (a directory,
    no permission); not text in the encoding it is read in; text that is
    not JSON; or the text of the value [v]. *)
Inductive file : Type :=
| Absent
| Unreadable
| Undecodable
| NotJson
| Json (v : pyval).

(** ** Built-ins used by the agent *)

Section Builtins.
Variable A : Type.
Variable key : A -> nat.

Fixpoint insert_by (x : A) (l : list A) : list A :=
  match l with
  | [] => [x]
  | y :: l' => if key x <=? key y then x :: l else y :: insert_by x l'
  end.

(** [sorted(l, key=key)]: the stable sort of [l] by [key]. *)
Definition py_sorted (l : list A) : list A := fold_right insert_by [] l.
End Builtins.

(** [x in l] for a list of strings *)
Definition py_in (x : string) (l : list string) : bool :=
  existsb (String.eqb x) l.

(** [l.index(x)], [None] standing for the [ValueError] of an absent [x] *)
Fixpoint py_index (x : string) (l : list string) : option nat :=
  match l with
  | [] => None
  | y :: l' =>
      if String.eqb x y then Some 0
      else match py_index x l' with Some i => Some (S i) | None => None end
  end.

(** ** ListOrganizationAgent *)

Module ListOrganizationAgent.

(** The agent: its in-memory list and the content of [state.json]. *)
Record self : Type := {
  current_items : ListState;
  disk : file
}.

Definition default_aisles : list string :=
  [ "Produce"; "Dairy"; "Meat"; "Frozen"; "Pantry"; "Canned Goods";
    "Baking"; "Beverages"; "Snacks"; "Household"; "Personal Care" ].

(** *** State store *)

(** [open] followed by [json.load] *)
Definition read_json (f : file) : result pyval :=
  match f with
  | Absent => Raise FileNotFoundError
  | Unreadable => Raise OSError
  | Undecodable => Raise UnicodeDecodeError
  | NotJson => Raise JSONDecodeError
  | Json v => Ok v
  end.

(** [state.get('items', {}).items()] *)
Definition state_items (state : pyval) : result (list (string * pyval)) :=
  match state with
  | PDict d =>
      match PyDict.get "items" d with
      | Some (PDict aisles) => Ok aisles
      | Some _ => Raise AttributeError
      | None => Ok []
      end
  | _ => Raise AttributeError
  end.

(** The loop of [load_state] over the aisles of the document. *)
Fixpoint load_aisles (aisles : list (string * pyval)) (items_dict : ListState)
  : result ListState :=
  match aisles with
  | [] => Ok items_dict
  | (aisle, items) :: rest =>
      elems <- py_iter items ;;
      parsed <- mapM GroceryItem.new elems ;;
      load_aisles rest (PyDict.set aisle parsed items_dict)
  end.

Definition load_state (f : file) : result ListState :=
  match (state <- read_json f ;;
         aisles <- state_items state ;;
         load_aisles aisles [])
  with
  | Raise FileNotFoundError => Ok []
  | Raise JSONDecodeError => Ok []
  | r => r
  end.

(** The document [save_state] dumps. *)
Definition state_doc (items : ListState) : pyval :=
  PDict [ ("items",
           PDict (PyDict.of_pairs
                    (map (fun kv => (fst kv, PList (map (fun i => PDict (GroceryItem.dict i)) (snd kv))))
                         items))) ].

(** [save_state]; opening the file and writing to it are taken to
    succeed. *)
Definition save_state (s : self) : self :=
  {| current_items := current_items s; disk := Json (state_doc (current_items s)) |}.

(** [__init__] *)
Definition init (f : file) : result self :=
  items <- load_state f ;;
  Ok {| current_items := items; disk := f |}.

(** *** Categorization: what follows the model's answer *)

(** [categorized_data["items"]] *)
Definition subscript_items (v : pyval) : result pyval :=
  match v with
  | PDict d =>
      match PyDict.get "items" d with
      | Some x => Ok x
      | None => Raise KeyError
      end
  | _ => Raise TypeError
  end.

(** One round of the loop that builds [new_items]; [fresh n] is the
    [n]-th identifier [uuid.uuid4()] hands out.  A record that is not a
    dict fails with [TypeError] at the membership test, at the
    assignment or at the unpacking. *)
Definition build_item (fresh : nat -> string) (n : nat) (item_data : pyval)
  : result (GroceryItem.t * nat) :=
  match item_data with
  | PDict d =>
      if PyDict.contains "id" d
      then item <- GroceryItem.of_kwargs d ;; Ok (item, n)
      else item <- GroceryItem.of_kwargs (PyDict.set "id" (PStr (fresh n)) d) ;;
           Ok (item, S n)
  | _ => Raise TypeError
  end.

Fixpoint build_items (fresh : nat -> string) (n : nat) (l : list pyval)
  : result (list GroceryItem.t * nat) :=
  match l with
  | [] => Ok ([], n)
  | item_data :: rest =>
      r <- build_item fresh n item_data ;;
      rs <- build_items fresh (snd r) rest ;;
      Ok (fst r :: fst rs, snd rs)
  end.

(** The lowercased names of all items of all aisles. *)
Definition existing_names (items : ListState) : list string :=
  flat_map (fun kv => map (fun i => PyStr.lower (GroceryItem.name i)) (snd kv)) items.

(** The filter at the end of [categorize_items]. *)
Definition filter_new (s : self) (new_items : list GroceryItem.t) (preserve_existing : bool)
  : list GroceryItem.t :=
  if preserve_existing
  then filter (fun i => negb (py_in (PyStr.lower (GroceryItem.name i))
                                    (existing_names (current_items s))))
              new_items
  else new_items.

(** [categorize_items] from the point where the model has answered:
    [content] is what [json.loads] makes of the answer, [None] when it
    is not JSON. *)
Definition categorize_items (s : self) (content : option pyval)
           (fresh : nat -> string) (n : nat) (preserve_existing : bool)
  : result (list GroceryItem.t * nat) :=
  match content with
  | None => Raise JSONDecodeError
  | Some categorized_data =>
      raw <- subscript_items categorized_data ;;
      elems <- py_iter raw ;;
      built <- build_items fresh n elems ;;
      Ok (filter_new s (fst built) preserve_existing, snd built)
  end.

(** *** Merge engine *)

(** The copy of the current items [organized] starts from. *)
Definition copy_current (items : ListState) : ListState :=
  fold_left (fun organized kv => PyDict.set (fst kv) (snd kv) organized) items [].

(** Does some aisle of [organized] hold an item of the same lowercased
    name? *)
Definition item_exists (organized : ListState) (item : GroceryItem.t) : bool :=
  existsb (fun aisle_items =>
             existsb (fun existing =>
                        PyStr.same_lower (GroceryItem.name existing) (GroceryItem.name item))
                     aisle_items)
          (PyDict.values organized).

(** [organized[aisle].append(item)] *)
Definition append_to (aisle : string) (item : GroceryItem.t) (organized : ListState)
  : ListState :=
  match PyDict.get aisle organized with
  | Some l => PyDict.set aisle (l ++ [item]) organized
  | None => organized
  end.

(** One round of the loop over the incoming items. *)
Definition add_item (organized : ListState) (item : GroceryItem.t) : ListState :=
  if item_exists organized item then organized
  else
    let organized' :=
      if PyDict.contains (GroceryItem.aisle item) organized then organized
      else PyDict.set (GroceryItem.aisle item) [] organized in
    append_to (GroceryItem.aisle item) item organized'.

(** The sort key of an aisle: its place in the store layout, or the
    length of the layout for an aisle that is not part of it. *)
Definition aisle_key (x : string * list GroceryItem.t) : nat :=
  if py_in (fst x) default_aisles
  then match py_index (fst x) default_aisles with
       | Some i => i
       | None => List.length default_aisles
       end
  else List.length default_aisles.

(** [dict(sorted(organized.items(), key=...))] *)
Definition sort_aisles (organized : ListState) : ListState :=
  PyDict.of_pairs (py_sorted aisle_key organized).

Definition organized_items (s : self) (items : list GroceryItem.t)
           (preserve_existing : bool) : ListState :=
  fold_left add_item items
            (if preserve_existing then copy_current (current_items s) else []).

(** [organize_by_aisle]: the agent afterwards; what the method returns
    is its [current_items]. *)
Definition organize_by_aisle (s : self) (items : list GroceryItem.t)
           (preserve_existing : bool) : self :=
  save_state {| current_items := sort_aisles (organized_items s items preserve_existing);
                disk := disk s |}.

(** *** Item mutators *)

(** The record that replaces [item] in [update_item_status]. *)
Definition with_checked (item_id : string) (checked : bool) (item : GroceryItem.t)
  : result GroceryItem.t :=
  GroceryItem.of_kwargs
    (PyDict.set "checked"
                (PBool (if String.eqb (GroceryItem.id item) item_id
                        then checked else GroceryItem.checked item))
                (GroceryItem.dict item)).

Definition update_item_status (s : self) (aisle item_id : string) (checked : bool)
  : result self :=
  match PyDict.get aisle (current_items s) with
  | Some aisle_items =>
      updated <- mapM (with_checked item_id checked) aisle_items ;;
      Ok (save_state {| current_items := PyDict.set aisle updated (current_items s);
                        disk := disk s |})
  | None => Ok s
  end.

Definition remove_item (s : self) (aisle item_id : string) : self :=
  match PyDict.get aisle (current_items s) with
  | Some aisle_items =>
      let kept :=
        filter (fun item => negb (String.eqb (GroceryItem.id item) item_id)) aisle_items in
      let items1 := PyDict.set aisle kept (current_items s) in
      let items2 :=
        match PyDict.get aisle items1 with
        | Some [] => PyDict.del aisle items1
        | _ => items1
        end in
      save_state {| current_items := items2; disk := disk s |}
  | None => s
  end.

Definition add_items (current new_items : list GroceryItem.t) : list GroceryItem.t :=
  let existing := map (fun i => PyStr.lower (GroceryItem.name i)) current in
  current ++ filter (fun i => negb (py_in (PyStr.lower (GroceryItem.name i)) existing))
                    new_items.

End ListOrganizationAgent.

(** ** The request layer *)

Module Main.
Import ListOrganizationAgent.

(** The loop that gives an identifier to the items that have none. *)
Fixpoint assign_ids (fresh : nat -> string) (n : nat) (items : list GroceryItem.t)
  : list GroceryItem.t :=
  match items with
  | [] => []
  | item :: rest =>
      if String.eqb (GroceryItem.id item) EmptyString
      then {| GroceryItem.id := fresh n;
              GroceryItem.name := GroceryItem.name item;
              GroceryItem.aisle := GroceryItem.aisle item;
              GroceryItem.quantity := GroceryItem.quantity item;
              GroceryItem.quantity_unit := GroceryItem.quantity_unit item;
              GroceryItem.checked := GroceryItem.checked item |}
           :: assign_ids fresh (S n) rest
      else item :: assign_ids fresh n rest
  end.

(** [process_message] and [add_recipe] from the answer of the
    categorization call on: the agent afterwards and either the list the
    endpoint returns or the exception it reports as a server error. *)
Definition merge_categorized (s : self) (content : option pyval) (fresh : nat -> string)
  : self * result ListState :=
  match categorize_items s content fresh 0 true with
  | Ok (grocery_items, n) =>
      let s' := organize_by_aisle s (assign_ids fresh n grocery_items) true in
      (s', Ok (current_items s'))
  | Raise e => (s, Raise e)
  end.

End Main.

Import ListOrganizationAgent.

(** ** IngredientsParserAgent *)

Module Ingredient.

Record t : Type := {
  name : string;
  quantity : string;
  quantity_unit : option string;
  aisle : option string
}.

(** The constructor called with the keyword arguments [d]. *)
Definition of_kwargs (d : PyDict.t pyval) : result t :=
  n <- GroceryItem.validate_str (PyDict.get "name" d) ;;
  q <- GroceryItem.validate_str (PyDict.get "quantity" d) ;;
  u <- GroceryItem.validate_opt_str (PyDict.get "quantity_unit" d) ;;
  a <- GroceryItem.validate_opt_str (PyDict.get "aisle" d) ;;
  Ok {| name := n; quantity := q; quantity_unit := u; aisle := a |}.

(** The constructor called with [v] unpacked as keyword arguments. *)
Definition new (v : pyval) : result t :=
  match v with
  | PDict d => of_kwargs d
  | _ => Raise TypeError
  end.

(** [ingredient.dict()] *)
Definition dict (i : t) : PyDict.t pyval :=
  [ ("name", PStr (name i));
    ("quantity", PStr (quantity i));
    ("quantity_unit", GroceryItem.opt_str (quantity_unit i));
    ("aisle", GroceryItem.opt_str (aisle i)) ].

End Ingredient.

Module Recipe.

Record t : Type := {
  name : string;
  ingredients : list Ingredient.t;
  instructions : option (list string)
}.

(** An element of the [ingredients] field: a mapping, validated as an
    ingredient. *)
Definition validate_ingredient (v : pyval) : result Ingredient.t :=
  match v with
  | PDict d => Ingredient.of_kwargs d
  | _ => Raise ValidationError
  end.

(** The required field [ingredients: List[Ingredient]]. *)
Definition validate_ingredients (v : option pyval) : result (list Ingredient.t) :=
  match v with
  | Some (PList l) => mapM validate_ingredient l
  | _ => Raise ValidationError
  end.

Definition validate_line (v : pyval) : result string :=
  match v with
  | PStr s => Ok s
  | _ => Raise ValidationError
  end.

(** The field [instructions: Optional[List[str]] = None]. *)
Definition validate_instructions (v : option pyval) : result (option (list string)) :=
  match v with
  | None => Ok None
  | Some PNone => Ok None
  | Some (PList l) => lines <- mapM validate_line l ;; Ok (Some lines)
  | _ => Raise ValidationError
  end.

Definition of_kwargs (d : PyDict.t pyval) : result t :=
  n <- GroceryItem.validate_str (PyDict.get "name" d) ;;
  i <- validate_ingredients (PyDict.get "ingredients" d) ;;
  s <- validate_instructions (PyDict.get "instructions" d) ;;
  Ok {| name := n; ingredients := i; instructions := s |}.

Definition new (v : pyval) : result t :=
  match v with
  | PDict d => of_kwargs d
  | _ => Raise TypeError
  end.

(** [recipe.dict()] *)
Definition dict (r : t) : PyDict.t pyval :=
  [ ("name", PStr (name r));
    ("ingredients", PList (map (fun i => PDict (Ingredient.dict i)) (ingredients r)));
    ("instructions",
      match instructions r with
      | Some lines => PList (map PStr lines)
      | None => PNone
      end) ].

End Recipe.

Module IngredientsParserAgent.

(** [data[key]] for the decoded answer [data] *)
Definition subscript (key : string) (data : pyval) : result pyval :=
  match data with
  | PDict d =>
      match PyDict.get key d with
      | Some x => Ok x
      | None => Raise KeyError
      end
  | _ => Raise TypeError
  end.

(** [parse_meal_to_ingredients] from the answer of the model on;
    [content] is what [json.loads] makes of it, [None] when it is not
    JSON. *)
Definition parse_meal_to_ingredients (content : option pyval) : result Recipe.t :=
  match content with
  | None => Raise JSONDecodeError
  | Some recipe_data => Recipe.new recipe_data
  end.

(** [suggest_recipes] from the answer of the model on *)
Definition suggest_recipes (content : option pyval) : result (list Recipe.t) :=
  match content with
  | None => Raise JSONDecodeError
  | Some suggestions_data =>
      raw <- subscript "recipes" suggestions_data ;;
      elems <- py_iter raw ;;
      mapM Recipe.new elems
  end.

(** [parse_natural_language_items] from the answer of the model on *)
Definition parse_natural_language_items (content : option pyval)
  : result (list Ingredient.t) :=
  match content with
  | None => Raise JSONDecodeError
  | Some ingredients_data =>
      raw <- subscript "ingredients" ingredients_data ;;
      elems <- py_iter raw ;;
      mapM Ingredient.new elems
  end.

End IngredientsParserAgent.

(** ** ConversationManager *)

Module ConversationManager.

Record Message : Type := {
  role : string;
  content : string
}.

Record self : Type := {
  conversation_history : list Message
}.

(** [__init__] *)
Definition init : self := {| conversation_history := [] |}.

Definition system_message : Message :=
  {| role := "system";
     content := "You are a helpful grocery list assistant. Parse user input to determine if they want to add items, remove items, or get recipe suggestions." |}.

(** The messages of the request: the system message, then the history. *)
Definition request_messages (s : self) : list Message :=
  system_message :: conversation_history s.

(** What [process_user_input] returns. *)
Record reply : Type := {
  response : string;
  intent : string;
  updated_list : list pyval
}.

(** [process_user_input]; [groq] stands for the model: the content of
    its first choice for the messages it is sent, or the exception the
    call ends in. *)
Definition process_user_input (s : self) (user_input : string)
           (groq : list Message -> result string) : self * result reply :=
  let s1 := {| conversation_history :=
                 conversation_history s ++ [{| role := "user"; content := user_input |}] |} in
  match groq (request_messages s1) with
  | Ok assistant_response =>
      ({| conversation_history :=
            conversation_history s1
              ++ [{| role := "assistant"; content := assistant_response |}] |},
       Ok {| response := assistant_response;
             intent := "pending_implementation";
             updated_list := [] |})
  | Raise e => (s1, Raise e)
  end.

Definition clear_history (s : self) : self := {| conversation_history := [] |}.

End ConversationManager.

(** ** The endpoints *)

Module Api.

(** The agents of the application. *)
Record app : Type := {
  conversation_manager : ConversationManager.self;
  list_organizer : ListOrganizationAgent.self
}.

Record ProcessMessageResponse : Type := {
  response : string;
  updated_list : ListState
}.

(** [process_message]: the application afterwards and the response, or
    the exception reported as a server error.  [groq] answers the
    conversation call, [parsed] is the decoded answer of the parsing call
    and [categorized] that of the categorization call. *)
Definition process_message (st : app) (message : string)
           (groq : list ConversationManager.Message -> result string)
           (parsed categorized : option pyval) (fresh : nat -> string)
  : app * result ProcessMessageResponse :=
  let (cm, result) :=
    ConversationManager.process_user_input (conversation_manager st) message groq in
  match result with
  | Raise e => ({| conversation_manager := cm; list_organizer := list_organizer st |}, Raise e)
  | Ok reply =>
      match IngredientsParserAgent.parse_natural_language_items parsed with
      | Raise e =>
          ({| conversation_manager := cm; list_organizer := list_organizer st |}, Raise e)
      | Ok _ =>
          let (lo, merged) := Main.merge_categorized (list_organizer st) categorized fresh in
          ({| conversation_manager := cm; list_organizer := lo |},
           match merged with
           | Ok organized_items =>
               Ok {| response := ConversationManager.response reply;
                     updated_list := organized_items |}
           | Raise e => Raise e
           end)
      end
  end.

(** [add_recipe]; [recipe] is the decoded answer of the recipe call. *)
Definition add_recipe (st : app) (recipe categorized : option pyval) (fresh : nat -> string)
  : app * result ListState :=
  match IngredientsParserAgent.parse_meal_to_ingredients recipe with
  | Raise e => (st, Raise e)
  | Ok _ =>
      let (lo, merged) := Main.merge_categorized (list_organizer st) categorized fresh in
      ({| conversation_manager := conversation_manager st; list_organizer := lo |}, merged)
  end.

End Api.

(** ** Sample data *)

Definition mk_item (i n a : string) : GroceryItem.t :=
  {| GroceryItem.id := i; GroceryItem.name := n; GroceryItem.aisle := a;
     GroceryItem.quantity := None; GroceryItem.quantity_unit := None;
     GroceryItem.checked := false |}.

Definition milk : GroceryItem.t := mk_item "1" "Milk" "Dairy".
Definition eggs : GroceryItem.t := mk_item "2" "Eggs" "Dairy".
Definition bread : GroceryItem.t := mk_item "3" "Bread" "Pantry".
Definition kale : GroceryItem.t := mk_item "4" "Kale" "Produce".
Definition peas : GroceryItem.t := mk_item "5" "Peas" "Frozen".
Definition rope : GroceryItem.t := mk_item "6" "Rope" "Hardware".
Definition seeds : GroceryItem.t := mk_item "7" "Seeds" "Garden".

Definition milk_caps : GroceryItem.t := mk_item "8" "MILK" "Frozen".
Definition milk_small : GroceryItem.t := mk_item "10" "milk" "Dairy".
Definition milk_padded : GroceryItem.t := mk_item "9" " Milk" "Dairy".

Definition shuffled : ListState :=
  [("Garden", [seeds]); ("Pantry", [bread]); ("Hardware", [rope]); ("Dairy", [milk])].

Definition two_aisles : ListState := [("Dairy", [milk; eggs]); ("Pantry", [bread])].

(** A state document whose only item has a name and nothing else. *)
Definition nameless_id_doc : pyval :=
  PDict [("items", PDict [("Dairy", PList [PDict [("name", PStr "Milk")]])])].

Definition eggs_record : pyval := PDict [("name", PStr "Eggs"); ("aisle", PStr "Dairy")].
Definition no_name_record : pyval := PDict [("aisle", PStr "Pantry")].

(** An answer of the categorization call: a usable record and one
    without a name. *)
Definition mixed_answer : pyval := PDict [("items", PList [eggs_record; no_name_record])].

(** An identifier supply for the samples. *)
Definition sample_uuid (n : nat) : string :=
  String.append "uuid-" (string_of_list_ascii (repeat "i"%char n)).

Definition agent_of (items : ListState) : self :=
  {| current_items := items; disk := Absent |}.

(** ** Vocabulary of the properties *)

(** In key order. *)
Definition ordered (A : Type) (key : A -> nat) (l : list A) : Prop :=
  StronglySorted (fun x y => key x <= key y) l.

Definition known_aisle (x : string * list GroceryItem.t) : bool :=
  py_in (fst x) default_aisles.

Definition unknown_aisle (x : string * list GroceryItem.t) : bool :=
  negb (known_aisle x).

(** The place of an aisle name in the store layout. *)
Definition rank (a : string) : nat := aisle_key (a, []).

Definition before (a b : string) : Prop := rank a < rank b.

(** The items of all aisles, aisle after aisle. *)
Definition all_items (d : ListState) : list GroceryItem.t := flat_map snd d.

(** An item whose name is made of ASCII characters. *)
Definition ascii_item (x : GroceryItem.t) : Prop :=
  PyStr.is_ascii (GroceryItem.name x) = true.

(** A list whose items all have such names. *)
Definition ascii_names (d : ListState) : Prop :=
  forall x, In x (all_items d) -> ascii_item x.

(** The key the code compares items by. *)
Definition name_key (x : GroceryItem.t) : string := PyStr.lower (GroceryItem.name x).

(** The identity key as the specification words it: the lowercase of
    the trimmed name. *)
Definition identity_key_spec (x : GroceryItem.t) : string :=
  PyStr.lower (PyStr.strip (GroceryItem.name x)).

(** The invariant of aisle lists: no aisle is listed with no item. *)
Definition no_empty_aisle (d : ListState) : Prop :=
  forall a its, In (a, its) d -> its <> [].

(** An item with its [checked] flag set to [c] when its id is [item_id]. *)
Definition checked_as (item_id : string) (c : bool) (item : GroceryItem.t) : GroceryItem.t :=
  {| GroceryItem.id := GroceryItem.id item;
     GroceryItem.name := GroceryItem.name item;
     GroceryItem.aisle := GroceryItem.aisle item;
     GroceryItem.quantity := GroceryItem.quantity item;
     GroceryItem.quantity_unit := GroceryItem.quantity_unit item;
     GroceryItem.checked := if String.eqb (GroceryItem.id item) item_id
                            then c else GroceryItem.checked item |}.

(** Two records that differ in the [checked] flag at most, the new flag
    being [c] when the id is [item_id] and the old flag otherwise. *)
Definition only_checked_differs (item_id : string) (c : bool) (old new : GroceryItem.t) : Prop :=
  GroceryItem.id new = GroceryItem.id old
  /\ GroceryItem.name new = GroceryItem.name old
  /\ GroceryItem.aisle new = GroceryItem.aisle old
  /\ GroceryItem.quantity new = GroceryItem.quantity old
  /\ GroceryItem.quantity_unit new = GroceryItem.quantity_unit old
  /\ GroceryItem.checked new = if String.eqb (GroceryItem.id old) item_id
                               then c else GroceryItem.checked old.

(** The encoding of an aisle in the document. *)
Definition encode_aisle (kv : string * list GroceryItem.t) : string * pyval :=
  (fst kv, PList (map (fun i => PDict (GroceryItem.dict i)) (snd kv))).

(** The value of an aisle in the state document can be loaded: it can
    be iterated, and a grocery item can be built from each element. *)
Definition loadable (v : pyval) : bool :=
  match py_iter v with
  | Ok elems => forallb (fun x => is_ok (GroceryItem.new x)) elems
  | Raise _ => false
  end.

(** A value that is a JSON object. *)
Definition is_object (v : pyval) : bool :=
  match v with
  | PDict _ => true
  | _ => false
  end.

(** A state document whose aisle is an empty string. *)
Definition empty_string_aisle_doc : pyval :=
  PDict [("items", PDict [("Dairy", PStr EmptyString)])].

(** A record of the model's answer carries field [k] as a string. *)
Definition has_str (k : string) (v : pyval) : bool :=
  match v with
  | PDict d => match PyDict.get k d with Some (PStr _) => true | _ => false end
  | _ => false
  end.

(** Every item sits in the aisle its [aisle] field names. *)
Definition aisle_consistent (d : ListState) : Prop :=
  forall a its x, In (a, its) d -> In x its -> GroceryItem.aisle x = a.

(** The test [remove_item] keeps an item by. *)
Definition other_id (item_id : string) (item : GroceryItem.t) : bool :=
  negb (String.eqb (GroceryItem.id item) item_id).

(** The names of the fields of a grocery item. *)
Definition item_fields : list string :=
  ["id"; "name"; "aisle"; "quantity"; "quantity_unit"; "checked"].

(** [item] is what the categorization loop builds from the record [v]:
    the name and the aisle of the record, and its id, or an identifier of
    the supply when the record has none. *)
Definition built_from (fresh : nat -> string) (v : pyval) (item : GroceryItem.t) : Prop :=
  exists d,
    v = PDict d
    /\ PyDict.get "name" d = Some (PStr (GroceryItem.name item))
    /\ PyDict.get "aisle" d = Some (PStr (GroceryItem.aisle item))
    /\ (PyDict.get "id" d = Some (PStr (GroceryItem.id item))
        \/ (PyDict.get "id" d = None /\ exists k, GroceryItem.id item = fresh k)).

(** A record with no [id] key, for which the loop draws an identifier. *)
Definition lacks_id (v : pyval) : bool :=
  match v with
  | PDict d => negb (PyDict.contains "id" d)
  | _ => false
  end.

(** The number of identifiers the loop draws for the records [l]. *)
Definition drawn (l : list pyval) : nat := List.length (filter lacks_id l).

(** Of the items built from the records [l], those of the records with
    no [id] key, in order. *)
Definition generated (l : list pyval) (items : list GroceryItem.t) : list GroceryItem.t :=
  map snd (filter (fun p => lacks_id (fst p)) (combine l items)).

(** [new] is [old] with, at most, another id: the id of [old] when it is
    not empty, an identifier of the supply otherwise. *)
Definition id_assigned (fresh : nat -> string) (old new : GroceryItem.t) : Prop :=
  GroceryItem.name new = GroceryItem.name old
  /\ GroceryItem.aisle new = GroceryItem.aisle old
  /\ GroceryItem.quantity new = GroceryItem.quantity old
  /\ GroceryItem.quantity_unit new = GroceryItem.quantity_unit old
  /\ GroceryItem.checked new = GroceryItem.checked old
  /\ (GroceryItem.id old <> EmptyString -> GroceryItem.id new = GroceryItem.id old)
  /\ (GroceryItem.id old = EmptyString -> exists k, GroceryItem.id new = fresh k).

(** The answer of the categorization call that lists [items] as they
    dump. *)
Definition answer_of (items : list GroceryItem.t) : pyval :=
  PDict [("items", PList (map (fun i => PDict (GroceryItem.dict i)) items))].

(** The roles of [n] complete exchanges. *)
Fixpoint exchanges (n : nat) : list string :=
  match n with
  | 0 => []
  | S n' => "user" :: "assistant" :: exchanges n'
  end.

(** Decides that a concrete association list has distinct keys. *)
Ltac wf_dict := unfold PyDict.wf; simpl; repeat constructor; simpl; intuition discriminate.

(** * Properties *)

(** ** Facts about dicts *)

Module PyDictFacts.
Import PyDict.

Section Facts.
Variable V : Type.
Implicit Types (d : PyDict.t V) (k : string) (v : V).

Lemma get_In : forall d k v, get k d = Some v -> In (k, v) d.
Proof.
  induction d as [|[k' v'] d IH]; simpl; intros k v H; [discriminate|].
  destruct (String.eqb_spec k k') as [->|Hne].
  - inversion H; subst; now left.
  - right; now apply IH.
Qed.

Lemma get_None_keys : forall d k, get k d = None <-> ~ In k (keys d).
Proof.
  induction d as [|[k' v'] d IH]; simpl; intros k.
  - split; [intros _ []|reflexivity].
  - destruct (String.eqb_spec k k') as [->|Hne].
    + split; [discriminate|intros H; exfalso; apply H; now left].
    + rewrite IH. split; intros H.
      * intros [E|E]; [congruence|auto].
      * intros E; apply H; now right.
Qed.

Lemma In_get : forall d k v, wf d -> In (k, v) d -> get k d = Some v.
Proof.
  induction d as [|[k' v'] d IH]; simpl; intros k v Hwf Hin; [contradiction|].
  inversion Hwf as [|? ? Hnotin Hwf']; subst.
  destruct Hin as [E|Hin].
  - inversion E; subst. now rewrite String.eqb_refl.
  - destruct (String.eqb_spec k k') as [->|Hne].
    + exfalso. apply Hnotin. change (In (fst (k', v)) (map fst d)).
      now apply in_map.
    + now apply IH.
Qed.

Lemma contains_keys : forall d k, contains k d = true <-> In k (keys d).
Proof.
  intros d k. unfold contains.
  destruct (get k d) eqn:E.
  - split; [intros _|reflexivity].
    apply get_In in E. change k with (fst (k, v)). now apply in_map.
  - apply get_None_keys in E. split; [discriminate|contradiction].
Qed.

Lemma get_set_same : forall d k v, get k (set k v d) = Some v.
Proof.
  induction d as [|[k' v'] d IH]; simpl; intros k v.
  - now rewrite String.eqb_refl.
  - destruct (String.eqb_spec k k') as [->|Hne]; simpl.
    + now rewrite String.eqb_refl.
    + apply String.eqb_neq in Hne. now rewrite Hne.
Qed.

Lemma get_set_other : forall d k k' v, k <> k' -> get k (set k' v d) = get k d.
Proof.
  induction d as [|[k0 v0] d IH]; simpl; intros k k' v Hne.
  - apply String.eqb_neq in Hne. now rewrite Hne.
  - destruct (String.eqb_spec k' k0) as [->|Hne']; simpl.
    + apply String.eqb_neq in Hne. now rewrite Hne.
    + destruct (String.eqb k k0); [reflexivity|now apply IH].
Qed.

Lemma set_get_id : forall d k v, get k d = Some v -> set k v d = d.
Proof.
  induction d as [|[k' v'] d IH]; simpl; intros k v H; [discriminate|].
  destruct (String.eqb_spec k k') as [->|Hne].
  - now inversion H.
  - f_equal. now apply IH.
Qed.

Lemma set_absent : forall d k v, get k d = None -> set k v d = d ++ [(k, v)].
Proof.
  induction d as [|[k' v'] d IH]; simpl; intros k v H; [reflexivity|].
  destruct (String.eqb k k'); [discriminate|].
  f_equal. now apply IH.
Qed.

Lemma keys_set_present : forall d k v, contains k d = true -> keys (set k v d) = keys d.
Proof.
  unfold contains.
  induction d as [|[k' v'] d IH]; simpl; intros k v H; [discriminate|].
  destruct (String.eqb k k'); simpl; [reflexivity|].
  f_equal. now apply IH.
Qed.

Lemma keys_set_absent : forall d k v, contains k d = false -> keys (set k v d) = keys d ++ [k].
Proof.
  unfold contains. intros d k v H.
  rewrite set_absent.
  - unfold keys. now rewrite map_app.
  - destruct (get k d); [discriminate|reflexivity].
Qed.

Lemma wf_set : forall d k v, wf d -> wf (set k v d).
Proof.
  intros d k v Hwf. unfold wf.
  destruct (contains k d) eqn:E.
  - now rewrite keys_set_present.
  - rewrite keys_set_absent by assumption.
    apply NoDup_app; [exact Hwf|repeat constructor; intros []|].
    intros x Hx [<-|[]].
    apply contains_keys in Hx. congruence.
Qed.

(** What an assignment leaves in the dict. *)
Lemma In_set : forall d k v k' v',
    In (k', v') (set k v d) -> (k' = k /\ v' = v) \/ In (k', v') d.
Proof.
  induction d as [|[k0 v0] d IH]; simpl; intros k v k' v' H.
  - destruct H as [E|[]]. inversion E; subst. now left.
  - destruct (String.eqb_spec k k0) as [->|Hne]; simpl in H.
    + destruct H as [E|H]; [inversion E; subst; now left|right; now right].
    + destruct H as [E|H]; [right; now left|].
      apply IH in H. destruct H; [now left|right; now right].
Qed.

Lemma In_set_other : forall d k v k' v',
    k' <> k -> In (k', v') d -> In (k', v') (set k v d).
Proof.
  induction d as [|[k0 v0] d IH]; simpl; intros k v k' v' Hne H; [contradiction|].
  destruct (String.eqb_spec k k0) as [->|Hne0]; simpl.
  - destruct H as [E|H]; [inversion E; subst; congruence|now right].
  - destruct H as [E|H]; [now left|right; now apply IH].
Qed.

Lemma In_del : forall d k k' v', In (k', v') (del k d) -> In (k', v') d.
Proof.
  induction d as [|[k0 v0] d IH]; simpl; intros k k' v' H; [contradiction|].
  destruct (String.eqb k k0); [now right|].
  destruct H as [E|H]; [now left|right; eapply IH; eauto].
Qed.

Lemma keys_del_notin : forall d k, wf d -> ~ In k (keys (del k d)).
Proof.
  induction d as [|[k0 v0] d IH]; simpl; intros k Hwf; [intros []|].
  inversion Hwf as [|? ? Hnotin Hwf']; subst.
  destruct (String.eqb_spec k k0) as [->|Hne]; simpl; [exact Hnotin|].
  intros [E|H]; [congruence|]. now apply (IH k Hwf').
Qed.

(** Filling an empty dict from pairs with distinct keys keeps the pairs. *)
Lemma fold_set_app : forall (l acc : list (string * V)),
    NoDup (keys (acc ++ l)) ->
    fold_left (fun d kv => set (fst kv) (snd kv) d) l acc = acc ++ l.
Proof.
  induction l as [|[k v] l IH]; simpl; intros acc Hnd.
  - now rewrite app_nil_r.
  - assert (Hk : get k acc = None).
    { apply get_None_keys. intros Hin.
      unfold keys in Hnd. rewrite map_app in Hnd. simpl in Hnd.
      apply NoDup_remove_2 in Hnd. apply Hnd. apply in_or_app. now left. }
    rewrite set_absent by exact Hk.
    rewrite IH; rewrite <- app_assoc; simpl; [reflexivity|exact Hnd].
Qed.

Lemma of_pairs_wf : forall d, wf d -> of_pairs d = d.
Proof. intros d Hwf. unfold of_pairs. now rewrite fold_set_app. Qed.

Lemma fold_set_wf : forall (l acc : list (string * V)),
    wf acc -> wf (fold_left (fun d kv => set (fst kv) (snd kv) d) l acc).
Proof.
  induction l as [|[k v] l IH]; simpl; intros acc Hwf; [exact Hwf|].
  apply IH. now apply wf_set.
Qed.

Lemma wf_nil : wf (@nil (string * V)).
Proof. constructor. Qed.

Lemma wf_Permutation : forall d d', Permutation d d' -> wf d -> wf d'.
Proof.
  intros d d' HP Hwf. unfold wf, keys in *.
  eapply Permutation_NoDup; [|exact Hwf]. now apply Permutation_map.
Qed.

Lemma get_Permutation : forall d d' k,
    wf d -> Permutation d d' -> get k d' = get k d.
Proof.
  intros d d' k Hwf HP.
  assert (Hwf' : wf d') by (eapply wf_Permutation; eauto).
  destruct (get k d) eqn:E.
  - apply In_get; [exact Hwf'|]. eapply Permutation_in; [exact HP|]. now apply get_In.
  - apply get_None_keys. apply get_None_keys in E. intros Hin. apply E.
    unfold keys in *. eapply Permutation_in; [|exact Hin].
    apply Permutation_map. now apply Permutation_sym.
Qed.

End Facts.
End PyDictFacts.

(** ** Facts about [sorted] *)

Section SortedFacts.
Variable A : Type.
Variable key : A -> nat.

Lemma insert_by_perm : forall x l, Permutation (insert_by key x l) (x :: l).
Proof.
  induction l as [|y l IH]; simpl; [reflexivity|].
  destruct (key x <=? key y); [reflexivity|].
  rewrite IH. apply perm_swap.
Qed.

Lemma py_sorted_perm : forall l, Permutation (py_sorted key l) l.
Proof.
  induction l as [|x l IH]; simpl; [reflexivity|].
  rewrite insert_by_perm. now constructor.
Qed.

Lemma insert_by_ordered : forall x l, ordered key l -> ordered key (insert_by key x l).
Proof.
  induction l as [|y l IH]; simpl; intros Hl.
  - repeat constructor.
  - inversion Hl as [|? ? Hl' Hy]; subst.
    destruct (Nat.leb_spec (key x) (key y)) as [Hle|Hgt].
    + constructor; [exact Hl|].
      constructor; [exact Hle|].
      eapply Forall_impl; [|exact Hy]. simpl. intros; lia.
    + constructor; [now apply IH|].
      eapply Permutation_Forall; [symmetry; apply insert_by_perm|].
      constructor; [lia|exact Hy].
Qed.

Lemma py_sorted_ordered : forall l, ordered key (py_sorted key l).
Proof.
  induction l as [|x l IH]; simpl; [constructor|now apply insert_by_ordered].
Qed.

(** A list that is in order already is returned as it is. *)
Lemma py_sorted_fixed : forall l, ordered key l -> py_sorted key l = l.
Proof.
  induction l as [|x l IH]; simpl; intros Hl; [reflexivity|].
  inversion Hl as [|? ? Hl' Hx]; subst.
  rewrite IH by exact Hl'.
  destruct l as [|y l]; simpl; [reflexivity|].
  inversion Hx; subst.
  destruct (Nat.leb_spec (key x) (key y)); [reflexivity|lia].
Qed.

Lemma py_sorted_idempotent : forall l, py_sorted key (py_sorted key l) = py_sorted key l.
Proof. intros l. apply py_sorted_fixed, py_sorted_ordered. Qed.

(** Stability: elements of equal key keep their relative order. *)
Lemma insert_by_filter_key : forall k x l,
    filter (fun y => key y =? k) (insert_by key x l)
    = if key x =? k then x :: filter (fun y => key y =? k) l
      else filter (fun y => key y =? k) l.
Proof.
  induction l as [|y l IH]; simpl; [reflexivity|].
  destruct (Nat.leb_spec (key x) (key y)) as [Hle|Hgt]; simpl; [reflexivity|].
  rewrite IH.
  destruct (Nat.eqb_spec (key x) k), (Nat.eqb_spec (key y) k); try reflexivity; lia.
Qed.

Lemma py_sorted_stable : forall k l,
    filter (fun y => key y =? k) (py_sorted key l) = filter (fun y => key y =? k) l.
Proof.
  induction l as [|x l IH]; simpl; [reflexivity|].
  rewrite insert_by_filter_key, IH. reflexivity.
Qed.

Lemma insert_by_app_low : forall x lo hi,
    (forall u, In u hi -> key x <= key u) ->
    insert_by key x (lo ++ hi) = insert_by key x lo ++ hi.
Proof.
  induction lo as [|y lo IH]; simpl; intros hi Hhi.
  - destruct hi as [|u hi]; simpl; [reflexivity|].
    destruct (Nat.leb_spec (key x) (key u)) as [_|Hgt]; [reflexivity|].
    specialize (Hhi u (or_introl eq_refl)). lia.
  - destruct (key x <=? key y); simpl; [reflexivity|].
    now rewrite IH.
Qed.

Lemma insert_by_app_high : forall x lo hi,
    (forall y, In y lo -> key y < key x) ->
    (forall u, In u hi -> key x <= key u) ->
    insert_by key x (lo ++ hi) = lo ++ x :: hi.
Proof.
  induction lo as [|y lo IH]; simpl; intros hi Hlo Hhi.
  - destruct hi as [|u hi]; simpl; [reflexivity|].
    destruct (Nat.leb_spec (key x) (key u)) as [_|Hgt]; [reflexivity|].
    specialize (Hhi u (or_introl eq_refl)). lia.
  - destruct (Nat.leb_spec (key x) (key y)) as [Hle|_].
    + specialize (Hlo y (or_introl eq_refl)). lia.
    + rewrite IH; auto.
Qed.

(** When [top] bounds every key, the elements of key [top] come last,
    in the order they had. *)
Lemma py_sorted_split : forall top l,
    (forall x, key x <= top) ->
    py_sorted key l
    = py_sorted key (filter (fun x => key x <? top) l)
        ++ filter (fun x => top <=? key x) l.
Proof.
  intros top l Htop.
  induction l as [|x l IH]; simpl; [reflexivity|].
  rewrite IH.
  assert (Hhi : forall u, In u (filter (fun x => top <=? key x) l) -> key u = top).
  { intros u Hu. apply filter_In in Hu. destruct Hu as [_ Hu].
    apply Nat.leb_le in Hu. specialize (Htop u). lia. }
  destruct (Nat.ltb_spec (key x) top) as [Hlt|Hge].
  - destruct (Nat.leb_spec top (key x)) as [Hle|_]; [lia|]. simpl.
    apply insert_by_app_low. intros u Hu. rewrite (Hhi u Hu). lia.
  - destruct (Nat.leb_spec top (key x)) as [_|Hlt]; [|lia].
    apply insert_by_app_high.
    + intros y Hy.
      apply (Permutation_in _ (py_sorted_perm _)) in Hy.
      apply filter_In in Hy. destruct Hy as [_ Hy].
      apply Nat.ltb_lt in Hy. lia.
    + intros u Hu. rewrite (Hhi u Hu). apply Htop.
Qed.

End SortedFacts.

(** ** The aisle sequencer *)

Section SequencerFacts.

Lemma py_index_bound : forall x l i, py_index x l = Some i -> i < List.length l.
Proof.
  induction l as [|y l IH]; simpl; intros i H; [discriminate|].
  destruct (String.eqb x y).
  - inversion H; lia.
  - destruct (py_index x l) as [j|]; [|discriminate].
    inversion H; subst. specialize (IH j eq_refl). lia.
Qed.

Lemma py_index_nth : forall x l i, py_index x l = Some i -> nth_error l i = Some x.
Proof.
  induction l as [|y l IH]; simpl; intros i H; [discriminate|].
  destruct (String.eqb_spec x y) as [->|Hne].
  - now inversion H.
  - destruct (py_index x l) as [j|]; [|discriminate].
    inversion H; subst. simpl. now apply IH.
Qed.

Lemma py_in_index : forall x l, py_in x l = true -> exists i, py_index x l = Some i.
Proof.
  induction l as [|y l IH]; simpl; intros H; [discriminate|].
  destruct (String.eqb x y); [now exists 0|].
  destruct (IH H) as [i Hi]. rewrite Hi. now exists (S i).
Qed.

Lemma py_in_In : forall x l, py_in x l = true <-> In x l.
Proof.
  intros x l. unfold py_in. rewrite existsb_exists. split.
  - intros [y [Hy E]]. apply String.eqb_eq in E. now subst.
  - intros H. exists x. split; [exact H|apply String.eqb_refl].
Qed.

Lemma aisle_key_fst : forall x, aisle_key x = rank (fst x).
Proof. reflexivity. Qed.

Lemma aisle_key_bound : forall x, aisle_key x <= List.length default_aisles.
Proof.
  intros x. unfold aisle_key.
  destruct (py_in (fst x) default_aisles); [|lia].
  destruct (py_index (fst x) default_aisles) eqn:E; [|lia].
  apply py_index_bound in E. lia.
Qed.

Lemma aisle_key_known : forall x,
    (aisle_key x <? List.length default_aisles) = known_aisle x.
Proof.
  intros x. unfold aisle_key, known_aisle.
  destruct (py_in (fst x) default_aisles) eqn:E.
  - destruct (py_in_index _ _ E) as [i Hi]. rewrite Hi.
    apply py_index_bound in Hi. now apply Nat.ltb_lt.
  - apply Nat.ltb_irrefl.
Qed.

Lemma aisle_key_unknown : forall x,
    (List.length default_aisles <=? aisle_key x) = unknown_aisle x.
Proof.
  intros x. unfold unknown_aisle. rewrite <- aisle_key_known.
  destruct (Nat.ltb_spec (aisle_key x) (List.length default_aisles));
    [apply Nat.leb_gt|apply Nat.leb_le]; assumption.
Qed.

(** Two known aisles of the same rank are the same aisle. *)
Lemma rank_inj : forall a b,
    py_in a default_aisles = true -> py_in b default_aisles = true ->
    rank a = rank b -> a = b.
Proof.
  intros a b Ha Hb. unfold rank, aisle_key. simpl fst. rewrite Ha, Hb.
  destruct (py_in_index _ _ Ha) as [i Hi], (py_in_index _ _ Hb) as [j Hj].
  rewrite Hi, Hj. intros ->.
  apply py_index_nth in Hi, Hj. congruence.
Qed.

Lemma default_aisles_in_order : StronglySorted before default_aisles.
Proof.
  unfold default_aisles.
  repeat (constructor; [|repeat (constructor; [vm_compute; lia|]); constructor]).
  constructor.
Qed.

Lemma StronglySorted_filter_before : forall f l,
    StronglySorted before l -> StronglySorted before (filter f l).
Proof.
  induction l as [|x l IH]; simpl; intros H; [constructor|].
  inversion H as [|? ? Hl Hx]; subst.
  destruct (f x); [|now apply IH].
  constructor; [now apply IH|].
  apply Forall_forall. intros y Hy. apply filter_In in Hy.
  rewrite Forall_forall in Hx. now apply Hx.
Qed.

(** Two lists in strict rank order with the same elements are equal. *)
Lemma before_unique : forall l l',
    StronglySorted before l -> StronglySorted before l' ->
    (forall x, In x l <-> In x l') -> l = l'.
Proof.
  unfold before.
  induction l as [|x l IH]; intros [|y l'] Hl Hl' Hiff.
  - reflexivity.
  - exfalso. apply (Hiff y). now left.
  - exfalso. apply (Hiff x). now left.
  - inversion Hl as [|? ? Hsl Hx]; inversion Hl' as [|? ? Hsl' Hy]; subst.
    rewrite Forall_forall in Hx, Hy.
    assert (E : x = y).
    { destruct (proj1 (Hiff x) (or_introl eq_refl)) as [E|Hin]; [now symmetry|].
      destruct (proj2 (Hiff y) (or_introl eq_refl)) as [E|Hin']; [exact E|].
      specialize (Hx _ Hin'). specialize (Hy _ Hin). lia. }
    subst y. f_equal. apply IH; try assumption.
    intros z. split; intros Hz.
    + destruct (proj1 (Hiff z) (or_intror Hz)) as [E|Hin]; [|exact Hin].
      subst z. specialize (Hx _ Hz). lia.
    + destruct (proj2 (Hiff z) (or_intror Hz)) as [E|Hin]; [|exact Hin].
      subst z. specialize (Hy _ Hz). lia.
Qed.

(** The names of known aisles with distinct names, once in key order,
    are in strict rank order. *)
Lemma ordered_known_keys : forall l : ListState,
    ordered aisle_key l -> PyDict.wf l ->
    (forall x, In x l -> known_aisle x = true) ->
    StronglySorted before (PyDict.keys l).
Proof.
  induction l as [|x l IH]; simpl; intros Hord Hwf Hk; [constructor|].
  inversion Hord as [|? ? Hl Hx]; subst.
  inversion Hwf as [|? ? Hnotin Hwf']; subst.
  constructor; [apply IH; auto|].
  apply Forall_forall. intros b Hb.
  apply in_map_iff in Hb. destruct Hb as [y [<- Hy]].
  rewrite Forall_forall in Hx. specialize (Hx y Hy).
  unfold before. rewrite <- !aisle_key_fst.
  destruct (Nat.eq_dec (aisle_key x) (aisle_key y)) as [E|Hne]; [|lia].
  exfalso. apply Hnotin.
  rewrite !aisle_key_fst in E. apply rank_inj in E.
  - rewrite E. now apply in_map.
  - apply (Hk x). now left.
  - apply (Hk y). now right.
Qed.

Lemma sort_aisles_wf : forall s : ListState,
    PyDict.wf s -> sort_aisles s = py_sorted aisle_key s.
Proof.
  intros s Hwf. unfold sort_aisles. apply PyDictFacts.of_pairs_wf.
  eapply PyDictFacts.wf_Permutation; [|exact Hwf].
  symmetry. apply py_sorted_perm.
Qed.

Lemma wf_filter : forall (f : string * list GroceryItem.t -> bool) (s : ListState),
    PyDict.wf s -> PyDict.wf (filter f s).
Proof.
  unfold PyDict.wf, PyDict.keys.
  induction s as [|x s IH]; simpl; intros H; [constructor|].
  inversion H as [|? ? Hnotin H']; subst.
  destruct (f x); simpl; [|now apply IH].
  constructor; [|now apply IH].
  intros Hin. apply Hnotin.
  apply in_map_iff in Hin. destruct Hin as [y [E Hy]].
  apply filter_In in Hy. rewrite <- E. apply in_map. tauto.
Qed.

End SequencerFacts.

(** C6. Sequencing is idempotent; it permutes the aisles and leaves what
    each aisle holds alone; the aisles of the store layout come first, in
    the order of the layout, and the other aisles follow in the order
    they had. *)
Theorem sort_aisles_canonical : forall s : ListState,
    PyDict.wf s ->
    sort_aisles (sort_aisles s) = sort_aisles s
    /\ Permutation (sort_aisles s) s
    /\ (forall a, PyDict.get a (sort_aisles s) = PyDict.get a s)
    /\ sort_aisles s = sort_aisles (filter known_aisle s) ++ filter unknown_aisle s
    /\ PyDict.keys (sort_aisles (filter known_aisle s))
       = filter (fun a => PyDict.contains a s) default_aisles.
Proof.
  intros s Hwf.
  assert (HP : Permutation (sort_aisles s) s).
  { rewrite sort_aisles_wf by exact Hwf. apply py_sorted_perm. }
  assert (Hwf' : PyDict.wf (sort_aisles s)).
  { eapply PyDictFacts.wf_Permutation; [symmetry; exact HP|exact Hwf]. }
  assert (Hwfk : PyDict.wf (filter known_aisle s)) by now apply wf_filter.
  repeat split.
  - rewrite (sort_aisles_wf Hwf'). rewrite (sort_aisles_wf Hwf).
    apply py_sorted_idempotent.
  - exact HP.
  - intros a. apply PyDictFacts.get_Permutation; [exact Hwf|now symmetry].
  - rewrite (sort_aisles_wf Hwf), (sort_aisles_wf Hwfk).
    rewrite (@py_sorted_split _ aisle_key (List.length default_aisles) s aisle_key_bound).
    f_equal.
    + f_equal. apply filter_ext. intros x. apply aisle_key_known.
    + apply filter_ext. intros x. apply aisle_key_unknown.
  - rewrite (sort_aisles_wf Hwfk).
    apply before_unique.
    + apply ordered_known_keys.
      * apply py_sorted_ordered.
      * eapply PyDictFacts.wf_Permutation; [symmetry; apply py_sorted_perm|exact Hwfk].
      * intros x Hx. apply (Permutation_in _ (py_sorted_perm aisle_key _)) in Hx.
        apply filter_In in Hx. tauto.
    + apply StronglySorted_filter_before, default_aisles_in_order.
    + intros a. rewrite filter_In, PyDictFacts.contains_keys.
      unfold PyDict.keys. split.
      * intros Ha. apply in_map_iff in Ha. destruct Ha as [x [<- Hx]].
        apply (Permutation_in _ (py_sorted_perm aisle_key _)) in Hx.
        apply filter_In in Hx. destruct Hx as [Hx Hk].
        split; [now apply py_in_In|now apply in_map].
      * intros [Hk Ha]. apply in_map_iff in Ha. destruct Ha as [x [<- Hx]].
        apply in_map.
        apply (Permutation_in _ (Permutation_sym (py_sorted_perm aisle_key _))).
        apply filter_In. split; [exact Hx|now apply py_in_In].
Qed.

Lemma sort_aisles_canonical_witness :
  sort_aisles shuffled
  = [("Dairy", [milk]); ("Pantry", [bread]); ("Garden", [seeds]); ("Hardware", [rope])]
  /\ sort_aisles (sort_aisles shuffled) = sort_aisles shuffled.
Proof.
  assert (Hwf : PyDict.wf shuffled) by wf_dict.
  destruct (@sort_aisles_canonical shuffled Hwf) as [Hidem _].
  split; [reflexivity|exact Hidem].
Defined.

(** ** The merge engine *)

Section MergeFacts.
Import PyDictFacts.

Lemma In_all_items : forall (d : ListState) x,
    In x (all_items d) <-> exists a its, In (a, its) d /\ In x its.
Proof.
  intros d x. unfold all_items. rewrite in_flat_map. split.
  - intros [[a its] [H1 H2]]. now exists a, its.
  - intros [a [its [H1 H2]]]. now exists (a, its).
Qed.

Lemma existing_names_all_items : forall d : ListState,
    existing_names d = map name_key (all_items d).
Proof.
  induction d as [|[a its] d IH]; simpl; [reflexivity|].
  unfold existing_names, all_items in *. simpl.
  now rewrite map_app, IH.
Qed.

(** The test of the merge loop is a test on lowercased names. *)
Lemma item_exists_iff : forall (organized : ListState) item,
    item_exists organized item = true
    <-> exists e, In e (all_items organized) /\ name_key e = name_key item.
Proof.
  intros organized item. unfold item_exists, PyDict.values.
  rewrite existsb_exists. split.
  - intros [its [Hits Hex]]. apply existsb_exists in Hex.
    destruct Hex as [e [He Hsame]].
    apply in_map_iff in Hits. destruct Hits as [[a its'] [E Hin]]. simpl in E. subst its'.
    exists e. split.
    + apply In_all_items. now exists a, its.
    + now apply String.eqb_eq in Hsame.
  - intros [e [He Hsame]]. apply In_all_items in He.
    destruct He as [a [its [Hin He]]].
    exists its. split.
    + change its with (snd (a, its)). now apply in_map.
    + apply existsb_exists. exists e. split; [exact He|].
      unfold PyStr.same_lower. now apply String.eqb_eq.
Qed.

Lemma item_exists_names : forall (organized : ListState) item,
    item_exists organized item = py_in (name_key item) (existing_names organized).
Proof.
  intros organized item.
  apply eq_true_iff_eq. rewrite item_exists_iff, py_in_In, existing_names_all_items.
  rewrite in_map_iff. split; intros [e [H1 H2]]; exists e; tauto.
Qed.

Lemma set_set : forall (d : ListState) k v v',
    PyDict.set k v (PyDict.set k v' d) = PyDict.set k v d.
Proof.
  induction d as [|[k0 v0] d IH]; simpl; intros k v v'.
  - now rewrite String.eqb_refl.
  - destruct (String.eqb k k0) eqn:E; simpl; rewrite E; [reflexivity|].
    now rewrite IH.
Qed.

(** What the loop does with an item whose name is new. *)
Lemma add_item_new : forall organized item,
    item_exists organized item = false ->
    add_item organized item
    = PyDict.set (GroceryItem.aisle item)
                 (match PyDict.get (GroceryItem.aisle item) organized with
                  | Some l => l
                  | None => []
                  end ++ [item])
                 organized.
Proof.
  intros organized item Hnew. unfold add_item, append_to, PyDict.contains.
  rewrite Hnew.
  destruct (PyDict.get (GroceryItem.aisle item) organized) as [l|] eqn:E.
  - now rewrite E.
  - rewrite get_set_same. apply set_set.
Qed.

Lemma add_item_old : forall organized item,
    item_exists organized item = true -> add_item organized item = organized.
Proof. intros organized item H. unfold add_item. now rewrite H. Qed.

Lemma add_item_wf : forall organized item,
    PyDict.wf organized -> PyDict.wf (add_item organized item).
Proof.
  intros organized item Hwf.
  destruct (item_exists organized item) eqn:E.
  - now rewrite add_item_old.
  - rewrite add_item_new by exact E. now apply wf_set.
Qed.

(** Every item of [organized] stays where it is. *)
Lemma add_item_keeps : forall organized item a its x,
    PyDict.wf organized ->
    In (a, its) organized -> In x its ->
    exists its', In (a, its') (add_item organized item) /\ In x its'.
Proof.
  intros organized item a its x Hwf Hin Hx.
  destruct (item_exists organized item) eqn:E.
  - rewrite add_item_old by exact E. now exists its.
  - rewrite add_item_new by exact E.
    destruct (String.eqb_spec a (GroceryItem.aisle item)) as [->|Hne].
    + rewrite (In_get _ _ Hwf Hin).
      exists (its ++ [item]). split.
      * apply get_In, get_set_same.
      * apply in_or_app. now left.
    + exists its. split; [|exact Hx]. now apply In_set_other.
Qed.

Lemma add_item_In : forall organized item x,
    In x (all_items (add_item organized item)) ->
    x = item \/ In x (all_items organized).
Proof.
  intros organized item x H.
  destruct (item_exists organized item) eqn:E.
  - rewrite add_item_old in H by exact E. now right.
  - rewrite add_item_new in H by exact E.
    apply In_all_items in H. destruct H as [a [its [Hin Hx]]].
    apply In_set in Hin. destruct Hin as [[-> ->]|Hin].
    + apply in_app_or in Hx. destruct Hx as [Hx|[<-|[]]]; [|now left].
      right. destruct (PyDict.get (GroceryItem.aisle item) organized) as [l|] eqn:G;
        [|contradiction].
      apply In_all_items. exists (GroceryItem.aisle item), l. split; [now apply get_In|exact Hx].
    + right. apply In_all_items. now exists a, its.
Qed.

(** A new item ends up in the aisle it names. *)
Lemma add_item_lands : forall organized item,
    item_exists organized item = false ->
    exists its, In (GroceryItem.aisle item, its) (add_item organized item) /\ In item its.
Proof.
  intros organized item E. rewrite add_item_new by exact E.
  eexists. split; [apply get_In, get_set_same|].
  apply in_or_app. right. now left.
Qed.

Lemma add_item_no_empty : forall organized item,
    no_empty_aisle organized -> no_empty_aisle (add_item organized item).
Proof.
  intros organized item Hne.
  destruct (item_exists organized item) eqn:E.
  - now rewrite add_item_old.
  - rewrite add_item_new by exact E.
    intros a its Hin. apply In_set in Hin. destruct Hin as [[-> ->]|Hin].
    + intros H. apply app_eq_nil in H. destruct H; discriminate.
    + now apply (Hne a).
Qed.

(** After its round, a name is known to the loop. *)
Lemma add_item_exists : forall organized item,
    item_exists (add_item organized item) item = true.
Proof.
  intros organized item.
  destruct (item_exists organized item) eqn:E.
  - now rewrite add_item_old.
  - apply item_exists_iff. exists item. split; [|reflexivity].
    destruct (@add_item_lands organized item E) as [its [H1 H2]].
    apply In_all_items. eauto.
Qed.

Lemma add_item_exists_keeps : forall organized item y,
    PyDict.wf organized ->
    item_exists organized y = true -> item_exists (add_item organized item) y = true.
Proof.
  intros organized item y Hwf H.
  apply item_exists_iff in H. destruct H as [e [He Hk]].
  apply item_exists_iff. exists e. split; [|exact Hk].
  apply In_all_items in He. destruct He as [a [its [Hin He]]].
  destruct (@add_item_keeps organized item a its e Hwf Hin He) as [its' [H1 H2]].
  apply In_all_items. eauto.
Qed.

(** *** The loop as a whole *)

Lemma fold_add_wf : forall items organized,
    PyDict.wf organized -> PyDict.wf (fold_left add_item items organized).
Proof.
  induction items as [|i items IH]; simpl; intros organized Hwf; [exact Hwf|].
  apply IH. now apply add_item_wf.
Qed.

Lemma fold_add_keeps : forall items organized a its x,
    PyDict.wf organized ->
    In (a, its) organized -> In x its ->
    exists its', In (a, its') (fold_left add_item items organized) /\ In x its'.
Proof.
  induction items as [|i items IH]; simpl; intros organized a its x Hwf Hin Hx.
  - now exists its.
  - destruct (@add_item_keeps organized i a its x Hwf Hin Hx) as [its' [H1 H2]].
    eapply IH; eauto using add_item_wf.
Qed.

Lemma fold_add_exists_keeps : forall items organized y,
    PyDict.wf organized ->
    item_exists organized y = true ->
    item_exists (fold_left add_item items organized) y = true.
Proof.
  induction items as [|i items IH]; simpl; intros organized y Hwf H; [exact H|].
  apply IH; [now apply add_item_wf|now apply add_item_exists_keeps].
Qed.

Lemma fold_add_In : forall items organized x,
    In x (all_items (fold_left add_item items organized)) ->
    In x items \/ In x (all_items organized).
Proof.
  induction items as [|i items IH]; simpl; intros organized x H; [now right|].
  apply IH in H. destruct H as [H|H]; [left; now right|].
  apply add_item_In in H. destruct H as [->|H]; [left; now left|now right].
Qed.

Lemma fold_add_no_empty : forall items organized,
    no_empty_aisle organized -> no_empty_aisle (fold_left add_item items organized).
Proof.
  induction items as [|i items IH]; simpl; intros organized H; [exact H|].
  apply IH. now apply add_item_no_empty.
Qed.

(** An item whose name the loop knows already can be left out. *)
Lemma fold_add_skip : forall pre post item organized,
    PyDict.wf organized ->
    item_exists (fold_left add_item pre organized) item = true ->
    fold_left add_item (pre ++ item :: post) organized
    = fold_left add_item (pre ++ post) organized.
Proof.
  intros pre post item organized Hwf H.
  rewrite !fold_left_app. simpl. now rewrite add_item_old.
Qed.

(** Every name that went through the loop is known to it. *)
Lemma fold_add_seen : forall pre organized y,
    PyDict.wf organized ->
    In y pre -> item_exists (fold_left add_item pre organized) y = true.
Proof.
  induction pre as [|i pre IH]; simpl; intros organized y Hwf Hy; [contradiction|].
  destruct Hy as [->|Hy].
  - apply fold_add_exists_keeps; [now apply add_item_wf|apply add_item_exists].
  - apply IH; [now apply add_item_wf|exact Hy].
Qed.

Lemma copy_current_wf : forall items : ListState, PyDict.wf (copy_current items).
Proof. intros items. unfold copy_current. apply fold_set_wf, wf_nil. Qed.

Lemma copy_current_id : forall items : ListState,
    PyDict.wf items -> copy_current items = items.
Proof. intros items Hwf. now apply (of_pairs_wf Hwf). Qed.

Lemma fold_set_In : forall (l acc : ListState) a its,
    In (a, its) (fold_left (fun d kv => PyDict.set (fst kv) (snd kv) d) l acc) ->
    In (a, its) acc \/ In (a, its) l.
Proof.
  induction l as [|[k v] l IH]; simpl; intros acc a its H; [now left|].
  apply IH in H. destruct H as [H|H]; [|right; now right].
  apply In_set in H. destruct H as [[-> ->]|H]; [right; now left|now left].
Qed.

Lemma copy_current_In : forall (items : ListState) a its,
    In (a, its) (copy_current items) -> In (a, its) items.
Proof.
  intros items a its H. apply fold_set_In in H. destruct H as [[]|H]. exact H.
Qed.

Lemma organized_items_wf : forall s items p, PyDict.wf (organized_items s items p).
Proof.
  intros s items p. unfold organized_items. apply fold_add_wf.
  destruct p; [apply copy_current_wf|apply wf_nil].
Qed.

Lemma organize_current : forall s items p,
    current_items (organize_by_aisle s items p)
    = py_sorted aisle_key (organized_items s items p).
Proof.
  intros s items p. simpl. apply sort_aisles_wf, organized_items_wf.
Qed.

Lemma organize_perm : forall s items p,
    Permutation (current_items (organize_by_aisle s items p)) (organized_items s items p).
Proof. intros. rewrite organize_current. apply py_sorted_perm. Qed.

(** *** Names never repeat *)

Lemma all_items_set_append : forall (d : ListState) k x,
    Permutation
      (all_items (PyDict.set k (match PyDict.get k d with
                                | Some l => l
                                | None => []
                                end ++ [x]) d))
      (x :: all_items d).
Proof.
  induction d as [|[k0 v0] d IH]; simpl; intros k x; [reflexivity|].
  destruct (String.eqb k k0); unfold all_items in *; simpl.
  - rewrite <- app_assoc. simpl. symmetry. apply Permutation_middle.
  - rewrite IH. symmetry. apply Permutation_middle.
Qed.

Lemma add_item_names : forall organized item,
    NoDup (existing_names organized) -> NoDup (existing_names (add_item organized item)).
Proof.
  intros organized item Hnd.
  destruct (item_exists organized item) eqn:E.
  - now rewrite add_item_old.
  - rewrite add_item_new by exact E.
    rewrite existing_names_all_items.
    eapply Permutation_NoDup.
    + symmetry. apply Permutation_map. apply all_items_set_append.
    + simpl. constructor.
      * rewrite item_exists_names in E. rewrite <- existing_names_all_items.
        intros Hin. apply py_in_In in Hin. congruence.
      * now rewrite <- existing_names_all_items.
Qed.

Lemma fold_add_names : forall items organized,
    NoDup (existing_names organized) ->
    NoDup (existing_names (fold_left add_item items organized)).
Proof.
  induction items as [|i items IH]; simpl; intros organized H; [exact H|].
  apply IH. now apply add_item_names.
Qed.

Lemma all_items_perm : forall d d' : ListState,
    Permutation d d' -> Permutation (all_items d) (all_items d').
Proof. intros d d' H. unfold all_items. now apply Permutation_flat_map. Qed.

Lemma organize_all_items : forall s items p,
    Permutation (all_items (current_items (organize_by_aisle s items p)))
                (all_items (organized_items s items p)).
Proof. intros. apply all_items_perm, organize_perm. Qed.

Lemma sort_aisles_single : forall x : string * list GroceryItem.t, sort_aisles [x] = [x].
Proof. intros [a its]. reflexivity. Qed.

End MergeFacts.

(** C1. With [preserve_existing] set, an incoming item whose lowercased
    name is the lowercased name of an item of the current list is
    dropped: merging it alone gives back the current list, re-sequenced,
    with every aisle holding what it held (the very same list when the
    aisles were in sequence already); the filter of the categorization
    step drops it too; and in a batch it could as well be absent. *)
Theorem merge_drops_known_name :
  forall (s : self) (item existing : GroceryItem.t),
    PyDict.wf (current_items s) ->
    In existing (all_items (current_items s)) ->
    PyStr.lower (GroceryItem.name existing) = PyStr.lower (GroceryItem.name item) ->
    current_items (organize_by_aisle s [item] true) = sort_aisles (current_items s)
    /\ Permutation (current_items (organize_by_aisle s [item] true)) (current_items s)
    /\ (forall a, PyDict.get a (current_items (organize_by_aisle s [item] true))
                  = PyDict.get a (current_items s))
    /\ (ordered aisle_key (current_items s) ->
        current_items (organize_by_aisle s [item] true) = current_items s)
    /\ filter_new s [item] true = []
    /\ (forall pre post,
           current_items (organize_by_aisle s (pre ++ item :: post) true)
           = current_items (organize_by_aisle s (pre ++ post) true)).
Proof.
  intros s item existing Hwf Hin Hname.
  assert (Hex : item_exists (current_items s) item = true).
  { apply item_exists_iff. now exists existing. }
  assert (Horg : organized_items s [item] true = current_items s).
  { unfold organized_items. simpl. rewrite copy_current_id by exact Hwf.
    now apply add_item_old. }
  assert (Hcur : current_items (organize_by_aisle s [item] true)
                 = py_sorted aisle_key (current_items s)).
  { now rewrite organize_current, Horg. }
  repeat split.
  - simpl. now rewrite Horg.
  - rewrite Hcur. apply py_sorted_perm.
  - intros a. rewrite Hcur.
    apply PyDictFacts.get_Permutation; [exact Hwf|]. symmetry. apply py_sorted_perm.
  - intros Hord. rewrite Hcur. now apply py_sorted_fixed.
  - assert (Hpy : py_in (PyStr.lower (GroceryItem.name item))
                        (existing_names (current_items s)) = true).
    { rewrite <- Hex. symmetry. apply item_exists_names. }
    unfold filter_new. cbn [filter]. now rewrite Hpy.
  - intros pre post. rewrite !organize_current. unfold organized_items.
    rewrite copy_current_id by exact Hwf. f_equal.
    apply fold_add_skip; [exact Hwf|].
    now apply fold_add_exists_keeps.
Qed.

Lemma merge_drops_known_name_witness :
  current_items (organize_by_aisle (agent_of two_aisles) [milk_caps] true) = two_aisles.
Proof.
  assert (Hwf : PyDict.wf (current_items (agent_of two_aisles))) by wf_dict.
  assert (Hin : In milk (all_items (current_items (agent_of two_aisles)))) by (simpl; tauto).
  destruct (@merge_drops_known_name (agent_of two_aisles) milk_caps milk Hwf Hin eq_refl)
    as [H _].
  exact H.
Defined.

(** C2, as the specification words it, fails: with [preserve_existing]
    unset, two incoming items of the same lowercased name are not both
    appended; the second one is dropped. *)
Lemma merge_replace_dedups_incoming :
  exists (s : self) (x y : GroceryItem.t),
    PyStr.lower (GroceryItem.name x) = PyStr.lower (GroceryItem.name y)
    /\ current_items (organize_by_aisle s [x; y] false) = [(GroceryItem.aisle x, [x])]
    /\ ~ In y (all_items (current_items (organize_by_aisle s [x; y] false))).
Proof.
  exists (agent_of [("Dairy", [milk])]), milk_caps, milk_small.
  vm_compute. repeat split. intros [H|[]]. discriminate.
Qed.

(** C2, amended. With [preserve_existing] unset the current list plays no
    part: a single incoming item becomes the whole list, whatever the
    current list holds; among incoming items of ASCII names, an item is
    appended to the aisle it names when no earlier incoming item has its
    lowercased name; and an incoming item that repeats the lowercased
    name of an earlier one is dropped. *)
Theorem merge_replace_first_wins :
  forall (s : self) (pre post : list GroceryItem.t) (x : GroceryItem.t),
    current_items (organize_by_aisle s [x] false) = [(GroceryItem.aisle x, [x])]
    /\ (ascii_item x ->
        (forall y, In y pre -> ascii_item y) ->
        (forall y, In y pre ->
                   PyStr.lower (GroceryItem.name y) <> PyStr.lower (GroceryItem.name x)) ->
        exists its,
          In (GroceryItem.aisle x, its)
             (current_items (organize_by_aisle s (pre ++ x :: post) false))
          /\ In x its)
    /\ ((exists y, In y pre
                   /\ PyStr.lower (GroceryItem.name y) = PyStr.lower (GroceryItem.name x)) ->
        current_items (organize_by_aisle s (pre ++ x :: post) false)
        = current_items (organize_by_aisle s (pre ++ post) false)).
Proof.
  intros s pre post x. repeat split.
  - simpl. unfold organized_items. simpl.
    rewrite add_item_new by reflexivity. reflexivity.
  - intros _ _ Hfresh. rewrite organize_current. unfold organized_items.
    rewrite fold_left_app. simpl.
    assert (Hwf : PyDict.wf (fold_left add_item pre [])).
    { apply fold_add_wf. apply PyDictFacts.wf_nil. }
    assert (Hnew : item_exists (fold_left add_item pre []) x = false).
    { destruct (item_exists (fold_left add_item pre []) x) eqn:E; [|reflexivity].
      apply item_exists_iff in E. destruct E as [e [He Hk]].
      apply fold_add_In in He. destruct He as [He|[]].
      exfalso. now apply (Hfresh e He). }
    destruct (@add_item_lands _ x Hnew) as [its [H1 H2]].
    destruct (@fold_add_keeps post _ _ its x (add_item_wf x Hwf) H1 H2) as [its' [H3 H4]].
    exists its'. split; [|exact H4].
    eapply Permutation_in; [symmetry; apply py_sorted_perm|exact H3].
  - intros [y [Hy Hk]]. rewrite !organize_current. unfold organized_items. f_equal.
    apply fold_add_skip; [apply PyDictFacts.wf_nil|].
    apply item_exists_iff.
    assert (Hseen := @fold_add_seen pre [] y (PyDictFacts.wf_nil _) Hy).
    apply item_exists_iff in Hseen. destruct Hseen as [e [He Hke]].
    exists e. split; [exact He|]. unfold name_key in *. congruence.
Qed.

Lemma merge_replace_first_wins_witness :
  (exists its,
      In ("Frozen", its)
         (current_items (organize_by_aisle (agent_of two_aisles) [bread; milk_caps; milk_small] false))
      /\ In milk_caps its)
  /\ current_items (organize_by_aisle (agent_of two_aisles) [milk_caps; milk_small; bread] false)
     = current_items (organize_by_aisle (agent_of two_aisles) [milk_caps; bread] false).
Proof.
  split.
  - apply (proj1 (proj2 (@merge_replace_first_wins
                           (agent_of two_aisles) [bread] [milk_small] milk_caps))).
    + reflexivity.
    + intros y [<-|[]]. reflexivity.
    + intros y [<-|[]]. discriminate.
  - apply (proj2 (proj2 (@merge_replace_first_wins
                           (agent_of two_aisles) [milk_caps] [bread] milk_small))).
    exists milk_caps. split; [now left|reflexivity].
Defined.

(** C3, as the specification words it, fails: a name that differs from
    a listed one by surrounding whitespace only has the same identity key
    in the specification's sense, and is merged all the same. *)
Lemma padded_name_is_merged :
  identity_key_spec milk = identity_key_spec milk_padded
  /\ current_items (organize_by_aisle (agent_of [("Dairy", [milk])]) [milk_padded] true)
     = [("Dairy", [milk; milk_padded])]
  /\ filter_new (agent_of [("Dairy", [milk])]) [milk_padded] true = [milk_padded].
Proof. repeat split. Qed.

(** C3, amended. For items whose names are made of ASCII characters,
    two items are the same item for the merge engine exactly when their
    names have the same lowercase; the names are not trimmed.  This is
    the test of the merge loop, the test of the filter of the
    categorization step, and what decides whether an item merged into a
    list of one item is dropped. *)
Theorem same_item_iff_same_lowercase :
  (forall (organized : ListState) (item : GroceryItem.t),
      ascii_names organized -> ascii_item item ->
      (item_exists organized item = true
       <-> exists e, In e (all_items organized)
                     /\ PyStr.lower (GroceryItem.name e) = PyStr.lower (GroceryItem.name item)))
  /\ (forall (s : self) (item : GroceryItem.t),
         ascii_names (current_items s) -> ascii_item item ->
         (filter_new s [item] true = []
          <-> exists e, In e (all_items (current_items s))
                        /\ PyStr.lower (GroceryItem.name e)
                           = PyStr.lower (GroceryItem.name item)))
  /\ (forall a b : GroceryItem.t,
         ascii_item a -> ascii_item b ->
         (current_items (organize_by_aisle (agent_of [(GroceryItem.aisle a, [a])]) [b] true)
          = [(GroceryItem.aisle a, [a])]
          <-> PyStr.lower (GroceryItem.name a) = PyStr.lower (GroceryItem.name b))).
Proof.
  split; [|split].
  - intros organized item _ _. apply item_exists_iff.
  - intros s item _ _. rewrite <- (item_exists_iff (current_items s) item).
    rewrite item_exists_names. unfold filter_new. cbn [filter]. unfold name_key.
    destruct (py_in _ _); simpl; split; congruence.
  - intros a b _ _.
    rewrite organize_current. unfold organized_items.
    change (fold_left add_item [b]
              (copy_current (current_items (agent_of [(GroceryItem.aisle a, [a])]))))
      with (add_item [(GroceryItem.aisle a, [a])] b).
    destruct (item_exists [(GroceryItem.aisle a, [a])] b) eqn:E.
    + rewrite add_item_old by exact E.
      split; [intros _|reflexivity].
      apply item_exists_iff in E. destruct E as [e [[<-|[]] Hk]]. exact Hk.
    + split.
      * intros Heq. exfalso.
        destruct (@add_item_lands _ b E) as [its [H1 H2]].
        assert (Hb : In b (all_items (py_sorted aisle_key
                                        (add_item [(GroceryItem.aisle a, [a])] b)))).
        { apply In_all_items. exists (GroceryItem.aisle b), its. split; [|exact H2].
          eapply Permutation_in; [symmetry; apply py_sorted_perm|exact H1]. }
        rewrite Heq in Hb. destruct Hb as [<-|[]].
        assert (Hex : item_exists [(GroceryItem.aisle a, [a])] a = true).
        { apply item_exists_iff. exists a. split; [now left|reflexivity]. }
        congruence.
      * intros Hk. exfalso.
        assert (Hex : item_exists [(GroceryItem.aisle a, [a])] b = true).
        { apply item_exists_iff. exists a. split; [now left|exact Hk]. }
        congruence.
Qed.

Lemma same_item_iff_same_lowercase_witness :
  ascii_item milk /\ ascii_item milk_caps /\ ascii_item milk_padded
  /\ current_items (organize_by_aisle (agent_of [("Dairy", [milk])]) [milk_caps] true)
     = [("Dairy", [milk])]
  /\ current_items (organize_by_aisle (agent_of [("Dairy", [milk])]) [milk_padded] true)
     <> [("Dairy", [milk])].
Proof.
  destruct same_item_iff_same_lowercase as [_ [_ H]].
  split; [reflexivity|]. split; [reflexivity|]. split; [reflexivity|]. split.
  - apply (proj2 (H milk milk_caps eq_refl eq_refl)). reflexivity.
  - intros E. apply (proj1 (H milk milk_padded eq_refl eq_refl)) in E. discriminate.
Defined.

(** C9. With [preserve_existing] unset the result is built from the
    incoming items alone: it is the same whatever the current list holds,
    every item of it is an incoming item, an item whose lowercased name
    no incoming item has is absent from it, and no lowercased name occurs
    twice in it. *)
Theorem merge_replace_discards_current :
  forall (s : self) (items : list GroceryItem.t),
    current_items (organize_by_aisle s items false)
    = current_items (organize_by_aisle (agent_of []) items false)
    /\ (forall x, In x (all_items (current_items (organize_by_aisle s items false))) ->
                  In x items)
    /\ (forall e,
           (forall y, In y items ->
                      PyStr.lower (GroceryItem.name y) <> PyStr.lower (GroceryItem.name e)) ->
           ~ In e (all_items (current_items (organize_by_aisle s items false))))
    /\ NoDup (existing_names (current_items (organize_by_aisle s items false))).
Proof.
  intros s items.
  assert (Hin : forall x, In x (all_items (current_items (organize_by_aisle s items false))) ->
                          In x items).
  { intros x Hx.
    apply (Permutation_in _ (organize_all_items s items false)) in Hx.
    apply fold_add_In in Hx. destruct Hx as [Hx|[]]. exact Hx. }
  repeat split.
  - exact Hin.
  - intros e Hfresh He. apply (Hfresh e); [now apply Hin|reflexivity].
  - rewrite existing_names_all_items.
    eapply Permutation_NoDup.
    + symmetry. apply Permutation_map. apply organize_all_items.
    + rewrite <- existing_names_all_items. apply fold_add_names. constructor.
Qed.

Lemma merge_replace_discards_current_witness :
  ~ In eggs (all_items (current_items (organize_by_aisle (agent_of two_aisles)
                                                         [milk_caps; rope] false))).
Proof.
  destruct (@merge_replace_discards_current (agent_of two_aisles) [milk_caps; rope])
    as [_ [_ [Habsent _]]].
  apply Habsent. intros y [<-|[<-|[]]]; discriminate.
Defined.

(** ** The state store *)

Section StoreFacts.
Import PyDictFacts.

Lemma of_kwargs_dict : forall i, GroceryItem.of_kwargs (GroceryItem.dict i) = Ok i.
Proof.
  intros [i n a q u c]. unfold GroceryItem.of_kwargs, GroceryItem.dict. simpl.
  destruct q, u; reflexivity.
Qed.

Lemma mapM_new_dicts : forall its,
    mapM GroceryItem.new (map (fun i => PDict (GroceryItem.dict i)) its) = Ok its.
Proof.
  induction its as [|i its IH]; simpl; [reflexivity|].
  rewrite of_kwargs_dict. simpl. rewrite IH. reflexivity.
Qed.

Lemma keys_encode : forall l : ListState,
    PyDict.keys (map encode_aisle l) = PyDict.keys l.
Proof.
  intros l. unfold PyDict.keys. rewrite map_map. reflexivity.
Qed.

Lemma load_aisles_encoded : forall (l acc : ListState),
    load_aisles (map encode_aisle l) acc
    = Ok (fold_left (fun d kv => PyDict.set (fst kv) (snd kv) d) l acc).
Proof.
  induction l as [|[a its] l IH]; simpl; intros acc; [reflexivity|].
  rewrite mapM_new_dicts. simpl. apply IH.
Qed.

Lemma state_doc_wf : forall items : ListState,
    PyDict.wf items ->
    state_doc items = PDict [("items", PDict (map encode_aisle items))].
Proof.
  intros items Hwf. unfold state_doc. fold encode_aisle.
  rewrite of_pairs_wf; [reflexivity|].
  unfold PyDict.wf. now rewrite keys_encode.
Qed.

Lemma load_state_doc : forall items : ListState,
    PyDict.wf items -> load_state (Json (state_doc items)) = Ok items.
Proof.
  intros items Hwf. rewrite state_doc_wf by exact Hwf.
  unfold load_state. simpl. rewrite load_aisles_encoded.
  now rewrite (fold_set_app items []).
Qed.

End StoreFacts.

(** C7. What [save_state] writes, [load_state] reads back: for every
    list state (a dict, so no aisle name occurs twice), with any number of
    aisles and with optional fields left null. *)
Theorem load_save_roundtrip :
  forall s : self,
    PyDict.wf (current_items s) ->
    load_state (disk (save_state s)) = Ok (current_items s).
Proof.
  intros s Hwf. simpl. now apply load_state_doc.
Qed.

Lemma load_save_roundtrip_witness :
  GroceryItem.quantity milk = None
  /\ GroceryItem.quantity_unit bread = None
  /\ load_state (disk (save_state (agent_of two_aisles))) = Ok two_aisles.
Proof.
  split; [reflexivity|split; [reflexivity|]].
  apply (@load_save_roundtrip (agent_of two_aisles)). wf_dict.
Defined.

(** ** The item mutators *)

Section MutatorFacts.
Import PyDictFacts.

Lemma with_checked_ok : forall item_id c item,
    with_checked item_id c item = Ok (checked_as item_id c item).
Proof.
  intros item_id c [i n a q u k]. unfold with_checked, checked_as, GroceryItem.of_kwargs.
  simpl. destruct q, u; reflexivity.
Qed.

Lemma mapM_with_checked : forall item_id c its,
    mapM (with_checked item_id c) its = Ok (map (checked_as item_id c) its).
Proof.
  induction its as [|i its IH]; simpl; [reflexivity|].
  rewrite with_checked_ok. simpl. rewrite IH. reflexivity.
Qed.

Lemma checked_as_other : forall item_id c item,
    GroceryItem.id item <> item_id -> checked_as item_id c item = item.
Proof.
  intros item_id c [i n a q u k] Hne. unfold checked_as. simpl in *.
  apply String.eqb_neq in Hne. now rewrite Hne.
Qed.

Lemma map_checked_as_other : forall item_id c its,
    (forall x, In x its -> GroceryItem.id x <> item_id) ->
    map (checked_as item_id c) its = its.
Proof.
  induction its as [|i its IH]; simpl; intros H; [reflexivity|].
  rewrite checked_as_other by (apply H; now left).
  f_equal. apply IH. intros x Hx. apply H. now right.
Qed.

Lemma checked_as_frame : forall item_id c its,
    Forall2 (only_checked_differs item_id c) its (map (checked_as item_id c) its).
Proof.
  induction its as [|i its IH]; simpl; constructor; [|exact IH].
  unfold only_checked_differs, checked_as. simpl. repeat split.
Qed.

Lemma update_item_status_present : forall s aisle item_id c its,
    PyDict.get aisle (current_items s) = Some its ->
    update_item_status s aisle item_id c
    = Ok (save_state {| current_items :=
                          PyDict.set aisle (map (checked_as item_id c) its) (current_items s);
                        disk := disk s |}).
Proof.
  intros s aisle item_id c its H. unfold update_item_status.
  rewrite H, mapM_with_checked. reflexivity.
Qed.

Lemma In_del_set : forall (d : ListState) k v k' v',
    In (k', v') (PyDict.del k (PyDict.set k v d)) -> In (k', v') d.
Proof.
  induction d as [|[k0 v0] d IH]; simpl; intros k v k' v' H.
  - rewrite String.eqb_refl in H. contradiction.
  - destruct (String.eqb k k0) eqn:E; simpl in H; rewrite E in H.
    + now right.
    + destruct H as [H|H]; [now left|right; eapply IH; eauto].
Qed.

Lemma set_no_empty : forall (d : ListState) k v,
    no_empty_aisle d -> v <> [] -> no_empty_aisle (PyDict.set k v d).
Proof.
  intros d k v Hd Hv a its Hin.
  apply In_set in Hin. destruct Hin as [[-> ->]|Hin]; [exact Hv|now apply (Hd a)].
Qed.

Lemma remove_item_present : forall s aisle item_id its,
    PyDict.get aisle (current_items s) = Some its ->
    current_items (remove_item s aisle item_id)
    = match filter (fun item => negb (String.eqb (GroceryItem.id item) item_id)) its with
      | [] => PyDict.del aisle (PyDict.set aisle [] (current_items s))
      | kept => PyDict.set aisle kept (current_items s)
      end.
Proof.
  intros s aisle item_id its H. unfold remove_item. rewrite H.
  rewrite get_set_same.
  destruct (filter _ its); reflexivity.
Qed.

Lemma remove_item_no_empty : forall s aisle item_id,
    no_empty_aisle (current_items s) ->
    no_empty_aisle (current_items (remove_item s aisle item_id)).
Proof.
  intros s aisle item_id Hne.
  destruct (PyDict.get aisle (current_items s)) as [its|] eqn:G.
  - rewrite (remove_item_present s aisle item_id G).
    destruct (filter _ its) as [|k kept].
    + intros a l Hin. apply In_del_set in Hin. now apply (Hne a).
    + apply set_no_empty; [exact Hne|discriminate].
  - unfold remove_item. now rewrite G.
Qed.

Lemma sorted_no_empty : forall d : ListState,
    no_empty_aisle d -> no_empty_aisle (py_sorted aisle_key d).
Proof.
  intros d Hd a its Hin. apply (Hd a).
  eapply Permutation_in; [apply py_sorted_perm|exact Hin].
Qed.

Lemma organize_no_empty : forall s items p,
    no_empty_aisle (current_items s) ->
    no_empty_aisle (current_items (organize_by_aisle s items p)).
Proof.
  intros s items p Hne. rewrite organize_current.
  apply sorted_no_empty. unfold organized_items. apply fold_add_no_empty.
  destruct p.
  - intros a its Hin. apply copy_current_In in Hin. now apply (Hne a).
  - intros a its [].
Qed.

End MutatorFacts.

(** C5. The three mutations keep every listed aisle non-empty: the
    merge, in either mode; the update of a checked flag, which does not
    fail; the removal of an item.  Removing the only item of an aisle
    removes the aisle name from the list. *)
Theorem mutations_keep_aisles_nonempty :
  forall s : self,
    no_empty_aisle (current_items s) ->
    (forall items preserve_existing,
        no_empty_aisle (current_items (organize_by_aisle s items preserve_existing)))
    /\ (forall aisle item_id checked,
           exists s', update_item_status s aisle item_id checked = Ok s'
                      /\ no_empty_aisle (current_items s'))
    /\ (forall aisle item_id,
           no_empty_aisle (current_items (remove_item s aisle item_id)))
    /\ (forall aisle item_id x,
           PyDict.wf (current_items s) ->
           PyDict.get aisle (current_items s) = Some [x] ->
           GroceryItem.id x = item_id ->
           PyDict.contains aisle (current_items (remove_item s aisle item_id)) = false).
Proof.
  intros s Hne. repeat split.
  - intros items p. now apply organize_no_empty.
  - intros aisle item_id c.
    destruct (PyDict.get aisle (current_items s)) as [its|] eqn:G.
    + rewrite (update_item_status_present s aisle item_id c G).
      eexists. split; [reflexivity|]. simpl.
      apply set_no_empty; [exact Hne|].
      apply PyDictFacts.get_In in G. apply Hne in G.
      destruct its; [contradiction|discriminate].
    + exists s. unfold update_item_status. rewrite G. now split.
  - intros aisle item_id. now apply remove_item_no_empty.
  - intros aisle item_id x Hwf G Hid.
    rewrite (remove_item_present s aisle item_id G). simpl.
    apply String.eqb_eq in Hid. rewrite Hid. simpl.
    destruct (PyDict.contains aisle (PyDict.del aisle (PyDict.set aisle [] (current_items s))))
      eqn:E; [|reflexivity].
    apply PyDictFacts.contains_keys in E. exfalso. revert E.
    apply PyDictFacts.keys_del_notin. now apply PyDictFacts.wf_set.
Qed.

Lemma mutations_keep_aisles_nonempty_witness :
  PyDict.contains "Pantry" (current_items (remove_item (agent_of two_aisles) "Pantry" "3")) = false
  /\ no_empty_aisle (current_items (remove_item (agent_of two_aisles) "Dairy" "1")).
Proof.
  assert (Hne : no_empty_aisle (current_items (agent_of two_aisles))).
  { intros a its [H|[H|[]]]; inversion H; discriminate. }
  destruct (@mutations_keep_aisles_nonempty (agent_of two_aisles) Hne) as [_ [_ [Hrm Hsole]]].
  split.
  - apply (Hsole "Pantry" "3" bread); [wf_dict|reflexivity|reflexivity].
  - apply Hrm.
Defined.

(** C10. When the aisle is listed, [update_item_status] succeeds and
    dumps the whole list to the state file, whether or not an id matches
    (when none does, the list is what it was): the file then holds an
    [items] object with every aisle of the list and its items, and
    loading it gives the list back.  The aisle keeps its items in place,
    each differing from what it was in the checked flag at most; the
    other aisles and the order of the aisles are untouched. *)
Theorem update_item_status_frame :
  forall (s : self) (aisle item_id : string) (checked : bool)
         (aisle_items : list GroceryItem.t),
    PyDict.get aisle (current_items s) = Some aisle_items ->
    exists (s' : self) (updated : list GroceryItem.t),
      update_item_status s aisle item_id checked = Ok s'
      /\ disk s' = Json (state_doc (current_items s'))
      /\ (PyDict.wf (current_items s) ->
          disk s' = Json (PDict [("items", PDict (map encode_aisle (current_items s')))])
          /\ load_state (disk s') = Ok (current_items s'))
      /\ PyDict.get aisle (current_items s') = Some updated
      /\ Forall2 (only_checked_differs item_id checked) aisle_items updated
      /\ (forall a, a <> aisle ->
                    PyDict.get a (current_items s') = PyDict.get a (current_items s))
      /\ PyDict.keys (current_items s') = PyDict.keys (current_items s)
      /\ ((forall x, In x aisle_items -> GroceryItem.id x <> item_id) ->
          current_items s' = current_items s).
Proof.
  intros s aisle item_id c its G.
  eexists. exists (map (checked_as item_id c) its).
  split; [apply (update_item_status_present s aisle item_id c G)|].
  cbn [current_items disk save_state].
  split; [reflexivity|]. split; [|repeat split].
  - intros Hwf.
    assert (Hwf' : PyDict.wf (PyDict.set aisle (map (checked_as item_id c) its)
                                         (current_items s)))
      by now apply PyDictFacts.wf_set.
    split; [now rewrite state_doc_wf|now apply load_state_doc].
  - apply PyDictFacts.get_set_same.
  - apply checked_as_frame.
  - intros a Hne. now apply PyDictFacts.get_set_other.
  - apply PyDictFacts.keys_set_present. unfold PyDict.contains. now rewrite G.
  - intros Hnone. rewrite map_checked_as_other by exact Hnone.
    now apply PyDictFacts.set_get_id.
Qed.

Lemma update_item_status_frame_witness :
  exists s' : self,
    update_item_status (agent_of two_aisles) "Dairy" "no-such-id" true = Ok s'
    /\ disk (agent_of two_aisles) = Absent
    /\ current_items s' = two_aisles
    /\ load_state (disk s') = Ok two_aisles.
Proof.
  destruct (@update_item_status_frame (agent_of two_aisles) "Dairy" "no-such-id" true
                                      [milk; eggs] eq_refl)
    as [s' [updated [Hok [_ [Hfile [_ [_ [_ [_ Hsame]]]]]]]]].
  assert (Hcur : current_items s' = two_aisles).
  { apply Hsame. intros x [<-|[<-|[]]]; discriminate. }
  exists s'. split; [exact Hok|]. split; [reflexivity|]. split; [exact Hcur|].
  rewrite <- Hcur. apply Hfile. wf_dict.
Defined.

(** ** Loading and categorizing: which exceptions *)

Section DecodeFacts.
Import PyDictFacts.

Lemma validate_str_raises : forall v e,
    GroceryItem.validate_str v = Raise e -> e = ValidationError.
Proof.
  intros [[| | | | | |]|] e H; simpl in H; congruence.
Qed.

Lemma validate_opt_str_raises : forall v e,
    GroceryItem.validate_opt_str v = Raise e -> e = ValidationError.
Proof.
  intros [[| | | | | |]|] e H; simpl in H; congruence.
Qed.

Lemma validate_bool_raises : forall v e,
    GroceryItem.validate_bool v = Raise e -> e = ValidationError.
Proof.
  intros [[| b | z | q | s | l | d]|] e H; simpl in H; try congruence.
  - destruct (Z.eqb z 0); [discriminate|]. destruct (Z.eqb z 1); congruence.
  - destruct (Qeq_bool q 0); [discriminate|]. destruct (Qeq_bool q 1); congruence.
  - destruct (_ || _); [discriminate|]. destruct (_ || _); congruence.
Qed.

(** The constructor fails with a validation error only. *)
Lemma of_kwargs_raises : forall d e,
    GroceryItem.of_kwargs d = Raise e -> e = ValidationError.
Proof.
  intros d e. unfold GroceryItem.of_kwargs, bind.
  destruct (GroceryItem.validate_str (PyDict.get "id" d)) eqn:E1;
    [|intros H; inversion H; subst; eapply validate_str_raises; eauto].
  destruct (GroceryItem.validate_str (PyDict.get "name" d)) eqn:E2;
    [|intros H; inversion H; subst; eapply validate_str_raises; eauto].
  destruct (GroceryItem.validate_str (PyDict.get "aisle" d)) eqn:E3;
    [|intros H; inversion H; subst; eapply validate_str_raises; eauto].
  destruct (GroceryItem.validate_opt_str (PyDict.get "quantity" d)) eqn:E4;
    [|intros H; inversion H; subst; eapply validate_opt_str_raises; eauto].
  destruct (GroceryItem.validate_opt_str (PyDict.get "quantity_unit" d)) eqn:E5;
    [|intros H; inversion H; subst; eapply validate_opt_str_raises; eauto].
  destruct (GroceryItem.validate_bool (PyDict.get "checked" d)) eqn:E6;
    [discriminate|intros H; inversion H; subst; eapply validate_bool_raises; eauto].
Qed.

Lemma validate_str_ok : forall k d s,
    GroceryItem.validate_str (PyDict.get k d) = Ok s -> has_str k (PDict d) = true.
Proof.
  intros k d s. unfold has_str.
  destruct (PyDict.get k d) as [[| | | | | |]|]; simpl; congruence.
Qed.

(** It succeeds only on records whose id, name and aisle are strings. *)
Lemma of_kwargs_ok : forall d i,
    GroceryItem.of_kwargs d = Ok i ->
    has_str "id" (PDict d) = true
    /\ has_str "name" (PDict d) = true
    /\ has_str "aisle" (PDict d) = true.
Proof.
  intros d i. unfold GroceryItem.of_kwargs, bind.
  destruct (GroceryItem.validate_str (PyDict.get "id" d)) eqn:E1; [|discriminate].
  destruct (GroceryItem.validate_str (PyDict.get "name" d)) eqn:E2; [|discriminate].
  destruct (GroceryItem.validate_str (PyDict.get "aisle" d)) eqn:E3; [|discriminate].
  intros _. repeat split; eapply validate_str_ok; eauto.
Qed.

Lemma of_kwargs_unusable : forall d,
    has_str "id" (PDict d) = false
    \/ has_str "name" (PDict d) = false
    \/ has_str "aisle" (PDict d) = false ->
    GroceryItem.of_kwargs d = Raise ValidationError.
Proof.
  intros d H.
  destruct (GroceryItem.of_kwargs d) as [i|e] eqn:E.
  - apply of_kwargs_ok in E. destruct E as [E1 [E2 E3]].
    destruct H as [H|[H|H]]; congruence.
  - apply of_kwargs_raises in E. now subst.
Qed.

Lemma new_raises : forall v e,
    GroceryItem.new v = Raise e -> e = TypeError \/ e = ValidationError.
Proof.
  intros [| | | | | |d] e H; simpl in H; try (left; congruence).
  right. eapply of_kwargs_raises; eauto.
Qed.

Lemma mapM_new_raises : forall l e,
    mapM GroceryItem.new l = Raise e -> e = TypeError \/ e = ValidationError.
Proof.
  induction l as [|v l IH]; simpl; intros e H; [discriminate|].
  unfold bind in H.
  destruct (GroceryItem.new v) eqn:E1; [|inversion H; subst; eapply new_raises; eauto].
  destruct (mapM GroceryItem.new l) eqn:E2; [discriminate|].
  inversion H; subst. now apply IH.
Qed.

Lemma py_iter_raises : forall v e, py_iter v = Raise e -> e = TypeError.
Proof. intros [| | | | | |] e H; simpl in H; congruence. Qed.

Lemma load_aisles_raises : forall aisles acc e,
    load_aisles aisles acc = Raise e -> e = TypeError \/ e = ValidationError.
Proof.
  induction aisles as [|[a items] aisles IH]; simpl; intros acc e H; [discriminate|].
  unfold bind in H.
  destruct (py_iter items) eqn:E1;
    [|inversion H; subst; left; eapply py_iter_raises; eauto].
  destruct (mapM GroceryItem.new a0) eqn:E2;
    [|inversion H; subst; eapply mapM_new_raises; eauto].
  eapply IH; eauto.
Qed.

Lemma state_items_raises : forall v e, state_items v = Raise e -> e = AttributeError.
Proof.
  intros [| | | | | |d] e H; simpl in H; try congruence.
  destruct (PyDict.get "items" d) as [[| | | | | |]|]; congruence.
Qed.

(** What [load_state] does with a document that is JSON. *)
Lemma load_state_json : forall v,
    load_state (Json v) = (aisles <- state_items v ;; load_aisles aisles []).
Proof.
  intros v. unfold load_state. simpl.
  destruct (state_items v) as [aisles|e] eqn:E1; simpl.
  - destruct (load_aisles aisles []) as [r|e] eqn:E2; [reflexivity|].
    apply load_aisles_raises in E2. destruct E2; subst; reflexivity.
  - apply state_items_raises in E1. subst. reflexivity.
Qed.

End DecodeFacts.

Section CategorizeFacts.
Import PyDictFacts.

Lemma has_str_set_id : forall k d v,
    k <> "id" -> has_str k (PDict (PyDict.set "id" v d)) = has_str k (PDict d).
Proof.
  intros k d v Hne. unfold has_str. now rewrite get_set_other.
Qed.

(** A record without a usable name or aisle builds no item. *)
Lemma build_item_unusable : forall fresh n v,
    has_str "name" v = false \/ has_str "aisle" v = false ->
    exists e, build_item fresh n v = Raise e.
Proof.
  intros fresh n v H.
  destruct v as [| | | | | |d]; try (exists TypeError; reflexivity).
  unfold build_item.
  destruct (PyDict.contains "id" d).
  - rewrite of_kwargs_unusable by tauto. now exists ValidationError.
  - rewrite of_kwargs_unusable; [now exists ValidationError|].
    right. rewrite !has_str_set_id by discriminate. exact H.
Qed.

Lemma build_items_unusable : forall fresh l n v,
    In v l ->
    has_str "name" v = false \/ has_str "aisle" v = false ->
    exists e, build_items fresh n l = Raise e.
Proof.
  induction l as [|w l IH]; simpl; intros n v Hin H; [contradiction|].
  destruct Hin as [->|Hin].
  - destruct (build_item_unusable fresh n v H) as [e He]. rewrite He. now exists e.
  - destruct (build_item fresh n w) as [r|e]; simpl; [|now exists e].
    destruct (IH (snd r) v Hin H) as [e He]. rewrite He. now exists e.
Qed.

End CategorizeFacts.

(** C4, as the specification words it, fails: a state file that holds
    valid JSON which does not match the layout makes [load_state], and
    with it the construction of the agent, raise. *)
Lemma load_state_raises_on_schema_mismatch :
  load_state (Json nameless_id_doc) = Raise ValidationError
  /\ init (Json nameless_id_doc) = Raise ValidationError
  /\ load_state (Json (PList [])) = Raise AttributeError
  /\ load_state Undecodable = Raise UnicodeDecodeError.
Proof. repeat split. Qed.

Section LoadFacts.

Lemma is_ok_mapM : forall (A B : Type) (f : A -> result B) (l : list A),
    is_ok (mapM f l) = forallb (fun x => is_ok (f x)) l.
Proof.
  induction l as [|x l IH]; simpl; [reflexivity|].
  destruct (f x) as [y|e]; simpl; [|reflexivity].
  rewrite <- IH. destruct (mapM f l); reflexivity.
Qed.

Lemma is_ok_load_aisles : forall aisles acc,
    is_ok (load_aisles aisles acc) = forallb (fun kv => loadable (snd kv)) aisles.
Proof.
  induction aisles as [|[a v] aisles IH]; simpl; intros acc; [reflexivity|].
  unfold loadable at 1. simpl.
  destruct (py_iter v) as [elems|e]; simpl; [|reflexivity].
  rewrite <- is_ok_mapM.
  destruct (mapM GroceryItem.new elems) as [parsed|e]; simpl; [apply IH|reflexivity].
Qed.

Lemma set_not_nil : forall (d : ListState) k v, PyDict.set k v d <> [].
Proof.
  intros [|[k0 v0] d] k v; simpl; [discriminate|].
  destruct (String.eqb k k0); discriminate.
Qed.

Lemma load_aisles_empty : forall aisles acc st,
    load_aisles aisles acc = Ok st -> (st = [] <-> aisles = [] /\ acc = []).
Proof.
  induction aisles as [|[a v] aisles IH]; simpl; intros acc st H.
  - inversion H; subst. tauto.
  - unfold bind in H.
    destruct (py_iter v) as [elems|]; [|discriminate].
    destruct (mapM GroceryItem.new elems) as [parsed|]; [|discriminate].
    apply IH in H. split.
    + intros E. apply H in E. destruct E as [_ E]. now apply set_not_nil in E.
    + intros [E _]. discriminate.
Qed.

Lemma py_iter_fails : forall v,
    is_ok (py_iter v) = false
    <-> v = PNone \/ (exists b, v = PBool b) \/ (exists z, v = PInt z)
        \/ (exists q, v = PFloat q).
Proof.
  intros v. split.
  - destruct v; simpl; intros H; try discriminate; eauto.
  - intros [->|[[b ->]|[[z ->]|[q ->]]]]; reflexivity.
Qed.

End LoadFacts.

(** C4, amended. [load_state] gives the empty list when the file is
    missing, when its content is not JSON, and when it is a JSON object
    without an [items] entry.  It raises when the file is there but cannot
    be opened or decoded as text; when the document, or its [items]
    value, is not an object (an attribute error); and when the value of
    some aisle cannot be loaded, that is, cannot be iterated (null, a
    boolean, a number) or holds an element no grocery item can be built
    from (a type or validation error; building from an element that is
    not an object is a type error, from an object without a string id,
    name or aisle a validation error).  When the value of every aisle can
    be loaded it returns a list, which is empty only when [items] is. *)
Theorem load_state_degrades :
  (load_state Absent = Ok [] /\ load_state NotJson = Ok [])
  /\ (load_state Unreadable = Raise OSError
      /\ load_state Undecodable = Raise UnicodeDecodeError)
  /\ (forall d, PyDict.get "items" d = None -> load_state (Json (PDict d)) = Ok [])
  /\ (forall v, is_object v = false -> load_state (Json v) = Raise AttributeError)
  /\ (forall d w, PyDict.get "items" d = Some w -> is_object w = false ->
                  load_state (Json (PDict d)) = Raise AttributeError)
  /\ (forall d aisles,
         PyDict.get "items" d = Some (PDict aisles) ->
         is_ok (load_state (Json (PDict d)))
         = forallb (fun kv => loadable (snd kv)) aisles
         /\ (forall e, load_state (Json (PDict d)) = Raise e ->
                       e = TypeError \/ e = ValidationError)
         /\ (forall st, load_state (Json (PDict d)) = Ok st -> (st = [] <-> aisles = [])))
  /\ (forall v,
         is_ok (py_iter v) = false
         <-> v = PNone \/ (exists b, v = PBool b) \/ (exists z, v = PInt z)
             \/ (exists q, v = PFloat q))
  /\ (forall x, is_object x = false -> GroceryItem.new x = Raise TypeError)
  /\ (forall record,
         has_str "id" (PDict record) = false
         \/ has_str "name" (PDict record) = false
         \/ has_str "aisle" (PDict record) = false ->
         GroceryItem.new (PDict record) = Raise ValidationError)
  /\ (forall d aisle record more rest,
         PyDict.get "items" d = Some (PDict ((aisle, PList (PDict record :: more)) :: rest)) ->
         has_str "id" (PDict record) = false
         \/ has_str "name" (PDict record) = false
         \/ has_str "aisle" (PDict record) = false ->
         load_state (Json (PDict d)) = Raise ValidationError).
Proof.
  split; [split; reflexivity|]. split; [split; reflexivity|].
  split; [|split; [|split; [|split; [|split; [|split; [|split]]]]]].
  - intros d H. rewrite load_state_json. simpl. now rewrite H.
  - intros v Hv. rewrite load_state_json.
    destruct v as [| | | | | |d]; try reflexivity. discriminate.
  - intros d w Hd Hw. rewrite load_state_json. simpl. rewrite Hd.
    destruct w as [| | | | | |a]; try reflexivity. discriminate.
  - intros d aisles Hd. rewrite load_state_json. simpl. rewrite Hd. simpl.
    split; [apply is_ok_load_aisles|]. split.
    + intros e H. now apply load_aisles_raises in H.
    + intros st H. apply load_aisles_empty in H. tauto.
  - apply py_iter_fails.
  - intros x Hx. destruct x; try reflexivity. discriminate.
  - intros record Hbad. simpl. now apply of_kwargs_unusable.
  - intros d aisle record more rest Hd Hbad.
    rewrite load_state_json. simpl. rewrite Hd. simpl.
    now rewrite (of_kwargs_unusable record Hbad).
Qed.

Lemma load_state_degrades_witness :
  load_state (Json (PDict [("version", PInt 1)])) = Ok []
  /\ load_state (Json nameless_id_doc) = Raise ValidationError
  /\ load_state (Json (PDict [("items", PList [])])) = Raise AttributeError
  /\ is_ok (load_state (Json empty_string_aisle_doc)) = true
  /\ is_ok (load_state (Json (PDict [("items", PDict [("Dairy", PNone)])]))) = false.
Proof.
  destruct load_state_degrades
    as [_ [_ [Hnone [_ [Hitems [Haisles [_ [_ [_ Hbad]]]]]]]]].
  split; [|split; [|split; [|split]]].
  - apply Hnone. reflexivity.
  - apply (Hbad _ "Dairy" [("name", PStr "Milk")] [] []); [reflexivity|].
    left. reflexivity.
  - apply (Hitems _ (PList [])); reflexivity.
  - apply (eq_trans (proj1 (Haisles [("items", PDict [("Dairy", PStr EmptyString)])]
                                    [("Dairy", PStr EmptyString)] eq_refl))).
    reflexivity.
  - apply (eq_trans (proj1 (Haisles [("items", PDict [("Dairy", PNone)])]
                                    [("Dairy", PNone)] eq_refl))).
    reflexivity.
Defined.

(** C8, as the specification words it, fails: a record without a name
    is not dropped on its own; the whole batch is rejected, so the usable
    record next to it is not merged either. *)
Lemma nameless_record_rejects_batch :
  has_str "name" eggs_record = true
  /\ has_str "aisle" eggs_record = true
  /\ has_str "name" no_name_record = false
  /\ Main.merge_categorized (agent_of []) (Some mixed_answer) sample_uuid
     = (agent_of [], Raise ValidationError).
Proof. repeat split. Qed.

(** C8, amended. An incoming record that lacks a name or an aisle (the
    field is absent or is not a string) is never merged: building the
    items fails, the request ends in an error, and the agent, its list
    and its state file are what they were; no item of the batch is
    merged. *)
Theorem unusable_record_rejects_batch :
  forall (s : self) (d : PyDict.t pyval) (raw : pyval) (elems : list pyval)
         (v : pyval) (fresh : nat -> string),
    PyDict.get "items" d = Some raw ->
    py_iter raw = Ok elems ->
    In v elems ->
    has_str "name" v = false \/ has_str "aisle" v = false ->
    exists e, Main.merge_categorized s (Some (PDict d)) fresh = (s, Raise e).
Proof.
  intros s d raw elems v fresh Hd Hraw Hin Hbad.
  unfold Main.merge_categorized, categorize_items. simpl.
  rewrite Hd. simpl. rewrite Hraw. simpl.
  destruct (build_items_unusable fresh elems 0 v Hin Hbad) as [e He].
  rewrite He. simpl. now exists e.
Qed.

Lemma unusable_record_rejects_batch_witness :
  exists e, Main.merge_categorized (agent_of two_aisles) (Some mixed_answer) sample_uuid
            = (agent_of two_aisles, Raise e).
Proof.
  apply (@unusable_record_rejects_batch (agent_of two_aisles) _
           (PList [eggs_record; no_name_record]) [eggs_record; no_name_record]
           no_name_record sample_uuid).
  - reflexivity.
  - reflexivity.
  - right. now left.
  - left. reflexivity.
Defined.

(** * Further properties of the agent *)

(** ** Merging *)

Section MergeMore.
Import PyDictFacts.

Lemma item_exists_perm : forall (d d' : ListState) x,
    Permutation d d' -> item_exists d x = true -> item_exists d' x = true.
Proof.
  intros d d' x HP H. apply item_exists_iff in H. destruct H as [e [He Hk]].
  apply item_exists_iff. exists e. split; [|exact Hk].
  eapply Permutation_in; [apply all_items_perm; exact HP|exact He].
Qed.

Lemma fold_add_all_old : forall items organized,
    (forall y, In y items -> item_exists organized y = true) ->
    fold_left add_item items organized = organized.
Proof.
  induction items as [|i items IH]; simpl; intros organized H; [reflexivity|].
  rewrite add_item_old by (apply H; now left).
  apply IH. intros y Hy. apply H. now right.
Qed.

Lemma organized_seen : forall s items p y,
    In y items -> item_exists (organized_items s items p) y = true.
Proof.
  intros s items p y Hy. unfold organized_items.
  apply fold_add_seen; [|exact Hy].
  destruct p; [apply copy_current_wf|apply wf_nil].
Qed.

Lemma organize_wf : forall s items p,
    PyDict.wf (current_items (organize_by_aisle s items p)).
Proof.
  intros s items p.
  eapply wf_Permutation; [symmetry; apply organize_perm|apply organized_items_wf].
Qed.

(** One round of the loop extends the list of an aisle at its end. *)
Lemma add_item_extends : forall organized item a its,
    PyDict.get a organized = Some its ->
    exists added,
      PyDict.get a (add_item organized item) = Some (its ++ added)
      /\ (forall y, In y added -> y = item /\ GroceryItem.aisle item = a).
Proof.
  intros organized item a its G.
  destruct (item_exists organized item) eqn:E.
  - rewrite add_item_old by exact E. exists []. rewrite app_nil_r.
    split; [exact G|intros y []].
  - rewrite add_item_new by exact E.
    destruct (String.eqb_spec a (GroceryItem.aisle item)) as [->|Hne].
    + rewrite G, get_set_same. exists [item]. split; [reflexivity|].
      intros y [<-|[]]. now split.
    + rewrite get_set_other by exact Hne. exists []. rewrite app_nil_r.
      split; [exact G|intros y []].
Qed.

Lemma fold_add_extends : forall items organized a its,
    PyDict.get a organized = Some its ->
    exists added,
      PyDict.get a (fold_left add_item items organized) = Some (its ++ added)
      /\ (forall y, In y added -> In y items /\ GroceryItem.aisle y = a).
Proof.
  induction items as [|i items IH]; simpl; intros organized a its G.
  - exists []. rewrite app_nil_r. split; [exact G|intros y []].
  - destruct (@add_item_extends organized i a its G) as [add1 [G1 H1]].
    destruct (IH _ _ _ G1) as [add2 [G2 H2]].
    exists (add1 ++ add2). rewrite app_assoc. split; [exact G2|].
    intros y Hy. apply in_app_or in Hy. destruct Hy as [Hy|Hy].
    + destruct (H1 y Hy) as [-> Ha]. split; [now left|exact Ha].
    + destruct (H2 y Hy) as [Hin Ha]. split; [now right|exact Ha].
Qed.

(** Items the current list names already are skipped by the loop, so
    leaving them out beforehand changes nothing. *)
Lemma fold_add_filtered : forall (current : ListState) items organized,
    PyDict.wf organized ->
    (forall x, item_exists current x = true -> item_exists organized x = true) ->
    fold_left add_item
              (filter (fun i => negb (py_in (PyStr.lower (GroceryItem.name i))
                                            (existing_names current))) items)
              organized
    = fold_left add_item items organized.
Proof.
  intros current.
  induction items as [|i items IH]; simpl; intros organized Hwf Hsub; [reflexivity|].
  assert (Hstep : forall x, item_exists current x = true ->
                            item_exists (add_item organized i) x = true).
  { intros x Hx. apply add_item_exists_keeps; auto. }
  destruct (py_in (PyStr.lower (GroceryItem.name i)) (existing_names current)) eqn:E; simpl.
  - assert (Hex : item_exists current i = true) by (rewrite item_exists_names; exact E).
    rewrite (add_item_old _ _ (Hsub i Hex)). now apply IH.
  - apply IH; [now apply add_item_wf|exact Hstep].
Qed.

End MergeMore.

(** X1. Merging a batch a second time changes nothing: the agent, its
    list and its state file are what the first merge left. *)
Theorem merge_twice_is_merge_once :
  forall (s : self) (items : list GroceryItem.t) (preserve_existing : bool),
    organize_by_aisle (organize_by_aisle s items preserve_existing) items true
    = organize_by_aisle s items preserve_existing.
Proof.
  intros s items p.
  assert (Hcur : current_items
                   (organize_by_aisle (organize_by_aisle s items p) items true)
                 = current_items (organize_by_aisle s items p)).
  { rewrite organize_current. unfold organized_items.
    rewrite copy_current_id by apply organize_wf.
    rewrite fold_add_all_old.
    - rewrite organize_current. apply py_sorted_idempotent.
    - intros y Hy. eapply item_exists_perm.
      + symmetry. apply organize_perm.
      + now apply organized_seen. }
  unfold organize_by_aisle at 1. unfold save_state.
  cbn [current_items disk].
  change (sort_aisles (organized_items (organize_by_aisle s items p) items true))
    with (current_items (organize_by_aisle (organize_by_aisle s items p) items true)).
  rewrite Hcur. reflexivity.
Qed.

(** X2. With [preserve_existing] set, the merge keeps the list of every
    aisle of the current list and extends it at its end: by incoming
    items only, each naming that aisle. *)
Theorem merge_extends_each_aisle :
  forall (s : self) (items : list GroceryItem.t) (a : string) (its : list GroceryItem.t),
    PyDict.wf (current_items s) ->
    PyDict.get a (current_items s) = Some its ->
    exists added,
      PyDict.get a (current_items (organize_by_aisle s items true)) = Some (its ++ added)
      /\ (forall y, In y added -> In y items /\ GroceryItem.aisle y = a).
Proof.
  intros s items a its Hwf G.
  destruct (@fold_add_extends items (current_items s) a its G) as [added [G' H]].
  exists added. split; [|exact H].
  rewrite organize_current. unfold organized_items.
  rewrite copy_current_id by exact Hwf.
  rewrite <- G'. apply PyDictFacts.get_Permutation.
  - apply fold_add_wf. exact Hwf.
  - symmetry. apply py_sorted_perm.
Qed.

Lemma merge_extends_each_aisle_witness :
  exists added,
    PyDict.get "Dairy" (current_items (organize_by_aisle (agent_of two_aisles)
                                                         [rope; milk_padded] true))
    = Some ([milk; eggs] ++ added)
    /\ (forall y, In y added -> In y [rope; milk_padded] /\ GroceryItem.aisle y = "Dairy").
Proof.
  apply (@merge_extends_each_aisle (agent_of two_aisles) [rope; milk_padded] "Dairy"
                                   [milk; eggs]).
  - wf_dict.
  - reflexivity.
Defined.

(** X3. The merge invents nothing: an item of the result is an incoming
    item or, with [preserve_existing] set, an item of the current list. *)
Theorem merge_items_origin :
  forall (s : self) (items : list GroceryItem.t) (preserve_existing : bool)
         (x : GroceryItem.t),
    In x (all_items (current_items (organize_by_aisle s items preserve_existing))) ->
    In x items \/ (preserve_existing = true /\ In x (all_items (current_items s))).
Proof.
  intros s items p x Hx.
  apply (Permutation_in _ (organize_all_items s items p)) in Hx.
  unfold organized_items in Hx. apply fold_add_In in Hx.
  destruct Hx as [Hx|Hx]; [now left|].
  destruct p; [|contradiction].
  right. split; [reflexivity|].
  apply In_all_items in Hx. destruct Hx as [a [its [Hin Hx]]].
  apply copy_current_In in Hin. apply In_all_items. eauto.
Qed.

Lemma merge_items_origin_witness :
  In milk [rope] \/ (true = true /\ In milk (all_items two_aisles)).
Proof.
  apply (@merge_items_origin (agent_of two_aisles) [rope] true milk).
  vm_compute. tauto.
Defined.

(** X4. With [preserve_existing] set, a list in which no lowercased name
    occurs twice stays so through the merge, whatever the batch. *)
Theorem merge_keeps_names_distinct :
  forall (s : self) (items : list GroceryItem.t),
    PyDict.wf (current_items s) ->
    NoDup (existing_names (current_items s)) ->
    NoDup (existing_names (current_items (organize_by_aisle s items true))).
Proof.
  intros s items Hwf Hnd.
  rewrite existing_names_all_items.
  eapply Permutation_NoDup.
  - symmetry. apply Permutation_map. apply organize_all_items.
  - rewrite <- existing_names_all_items. unfold organized_items.
    rewrite copy_current_id by exact Hwf. now apply fold_add_names.
Qed.

Lemma merge_keeps_names_distinct_witness :
  NoDup (existing_names
           (current_items (organize_by_aisle (agent_of two_aisles)
                                             [milk_caps; rope; milk_small] true))).
Proof.
  apply (@merge_keeps_names_distinct (agent_of two_aisles) [milk_caps; rope; milk_small]).
  - wf_dict.
  - vm_compute. repeat constructor; simpl; intuition discriminate.
Defined.

(** X5. The filter at the end of [categorize_items] is subsumed by the
    merge: merging the filtered batch and merging the whole batch give
    the same agent. *)
Theorem filter_then_merge_is_merge :
  forall (s : self) (items : list GroceryItem.t),
    PyDict.wf (current_items s) ->
    organize_by_aisle s (filter_new s items true) true = organize_by_aisle s items true.
Proof.
  intros s items Hwf.
  assert (Horg : organized_items s (filter_new s items true) true
                 = organized_items s items true).
  { unfold organized_items, filter_new.
    rewrite copy_current_id by exact Hwf.
    apply fold_add_filtered; [exact Hwf|auto]. }
  unfold organize_by_aisle. now rewrite Horg.
Qed.

Lemma filter_then_merge_is_merge_witness :
  organize_by_aisle (agent_of two_aisles)
                    (filter_new (agent_of two_aisles) [milk_caps; rope] true) true
  = organize_by_aisle (agent_of two_aisles) [milk_caps; rope] true.
Proof.
  apply (@filter_then_merge_is_merge (agent_of two_aisles) [milk_caps; rope]). wf_dict.
Defined.

(** ** Invariants of the list *)

Section InvariantFacts.
Import PyDictFacts.

Lemma get_del_other : forall (d : ListState) k a,
    a <> k -> PyDict.get a (PyDict.del k d) = PyDict.get a d.
Proof.
  induction d as [|[k0 v0] d IH]; simpl; intros k a Hne; [reflexivity|].
  destruct (String.eqb_spec k k0) as [->|Hk]; simpl.
  - apply String.eqb_neq in Hne. now rewrite Hne.
  - destruct (String.eqb a k0); [reflexivity|now apply IH].
Qed.

Lemma get_del_same : forall (d : ListState) k,
    PyDict.wf d -> PyDict.get k (PyDict.del k d) = None.
Proof.
  intros d k Hwf. apply get_None_keys. now apply keys_del_notin.
Qed.

Lemma wf_del : forall (d : ListState) k, PyDict.wf d -> PyDict.wf (PyDict.del k d).
Proof.
  unfold PyDict.wf, PyDict.keys.
  induction d as [|[k0 v0] d IH]; simpl; intros k H; [constructor|].
  inversion H as [|? ? Hnotin H']; subst.
  destruct (String.eqb k k0); simpl; [exact H'|].
  constructor; [|now apply IH].
  intros Hin. apply Hnotin.
  apply in_map_iff in Hin. destruct Hin as [[k1 v1] [E Hin]].
  apply In_del in Hin. simpl in E. subst k1.
  change k0 with (fst (k0, v1)). now apply in_map.
Qed.

Lemma ordered_del : forall (d : ListState) k,
    ordered aisle_key d -> ordered aisle_key (PyDict.del k d).
Proof.
  unfold ordered.
  induction d as [|[k0 v0] d IH]; simpl; intros k H; [constructor|].
  inversion H as [|? ? Hd Hx]; subst.
  destruct (String.eqb k k0); [exact Hd|].
  constructor; [now apply IH|].
  rewrite Forall_forall in *. intros [k1 v1] Hin. apply Hx.
  eapply In_del; eauto.
Qed.

Lemma ordered_set_present : forall (d : ListState) k v v0,
    PyDict.get k d = Some v0 ->
    ordered aisle_key d -> ordered aisle_key (PyDict.set k v d).
Proof.
  unfold ordered.
  induction d as [|[k0 w] d IH]; simpl; intros k v v0 G H; [discriminate|].
  inversion H as [|? ? Hd Hx]; subst.
  destruct (String.eqb_spec k k0) as [->|Hne].
  - constructor; [exact Hd|exact Hx].
  - constructor; [eapply IH; eauto|].
    rewrite Forall_forall in *. intros [k1 v1] Hin.
    apply In_set in Hin. destruct Hin as [[-> ->]|Hin].
    + apply get_In in G. apply (Hx _ G).
    + now apply Hx.
Qed.

Lemma add_item_consistent : forall organized item,
    aisle_consistent organized -> aisle_consistent (add_item organized item).
Proof.
  intros organized item Hc.
  destruct (item_exists organized item) eqn:E.
  - now rewrite add_item_old.
  - rewrite add_item_new by exact E.
    intros a its x Hin Hx. apply In_set in Hin. destruct Hin as [[-> ->]|Hin].
    + apply in_app_or in Hx. destruct Hx as [Hx|[<-|[]]]; [|reflexivity].
      destruct (PyDict.get (GroceryItem.aisle item) organized) as [l|] eqn:G;
        [|contradiction].
      apply get_In in G. now apply (Hc _ l).
    + now apply (Hc _ its).
Qed.

Lemma fold_add_consistent : forall items organized,
    aisle_consistent organized -> aisle_consistent (fold_left add_item items organized).
Proof.
  induction items as [|i items IH]; simpl; intros organized H; [exact H|].
  apply IH. now apply add_item_consistent.
Qed.

Lemma organize_consistent : forall s items p,
    aisle_consistent (current_items s) ->
    aisle_consistent (current_items (organize_by_aisle s items p)).
Proof.
  intros s items p Hc a its x Hin Hx.
  apply (Permutation_in _ (organize_perm s items p)) in Hin.
  revert a its x Hin Hx. unfold organized_items. apply fold_add_consistent.
  destruct p.
  - intros a its x Hin Hx. apply copy_current_In in Hin. now apply (Hc _ its).
  - intros a its x [].
Qed.

Lemma remove_item_consistent : forall s aisle item_id,
    aisle_consistent (current_items s) ->
    aisle_consistent (current_items (remove_item s aisle item_id)).
Proof.
  intros s aisle item_id Hc.
  destruct (PyDict.get aisle (current_items s)) as [its|] eqn:G.
  - rewrite (remove_item_present s aisle item_id G).
    destruct (filter _ its) as [|k kept] eqn:F.
    + intros a l x Hin Hx. apply In_del_set in Hin. now apply (Hc _ l).
    + intros a l x Hin Hx. apply In_set in Hin. destruct Hin as [[-> ->]|Hin].
      * rewrite <- F in Hx. apply filter_In in Hx. destruct Hx as [Hx _].
        apply get_In in G. now apply (Hc _ its).
      * now apply (Hc _ l).
  - unfold remove_item. now rewrite G.
Qed.

Lemma remove_item_ordered : forall s aisle item_id,
    ordered aisle_key (current_items s) ->
    ordered aisle_key (current_items (remove_item s aisle item_id)).
Proof.
  intros s aisle item_id Ho.
  destruct (PyDict.get aisle (current_items s)) as [its|] eqn:G.
  - rewrite (remove_item_present s aisle item_id G).
    destruct (filter _ its) as [|k kept].
    + apply ordered_del. eapply ordered_set_present; eauto.
    + eapply ordered_set_present; eauto.
  - unfold remove_item. now rewrite G.
Qed.

Lemma init_saved : forall s,
    PyDict.wf (current_items s) -> init (disk (save_state s)) = Ok (save_state s).
Proof.
  intros s Hwf. unfold init. simpl.
  rewrite load_state_doc by exact Hwf. reflexivity.
Qed.

Lemma remove_item_saved : forall s aisle item_id its,
    PyDict.get aisle (current_items s) = Some its ->
    remove_item s aisle item_id
    = save_state {| current_items := current_items (remove_item s aisle item_id);
                    disk := disk s |}.
Proof.
  intros s aisle item_id its G. unfold remove_item. rewrite G. reflexivity.
Qed.

Lemma remove_item_wf : forall s aisle item_id,
    PyDict.wf (current_items s) -> PyDict.wf (current_items (remove_item s aisle item_id)).
Proof.
  intros s aisle item_id Hwf.
  destruct (PyDict.get aisle (current_items s)) as [its|] eqn:G.
  - rewrite (remove_item_present s aisle item_id G).
    destruct (filter _ its); [apply wf_del|]; now apply wf_set.
  - unfold remove_item. now rewrite G.
Qed.

Lemma filter_all : forall (A : Type) (f : A -> bool) (l : list A),
    (forall x, In x l -> f x = true) -> filter f l = l.
Proof.
  induction l as [|x l IH]; simpl; intros H; [reflexivity|].
  rewrite (H x (or_introl eq_refl)). f_equal. apply IH. intros y Hy. apply H. now right.
Qed.

Lemma filter_none : forall (A : Type) (f : A -> bool) (l : list A),
    (forall x, In x l -> f x = false) -> filter f l = [].
Proof.
  induction l as [|x l IH]; simpl; intros H; [reflexivity|].
  rewrite (H x (or_introl eq_refl)). apply IH. intros y Hy. apply H. now right.
Qed.

Lemma filter_twice : forall (A : Type) (f : A -> bool) (l : list A),
    filter f (filter f l) = filter f l.
Proof.
  intros A f l. apply filter_all. intros x Hx. apply filter_In in Hx. tauto.
Qed.

Lemma checked_as_twice : forall item_id c c' x,
    checked_as item_id c' (checked_as item_id c x) = checked_as item_id c' x.
Proof.
  intros item_id c c' [i n a q u k]. unfold checked_as. simpl.
  destruct (String.eqb i item_id); reflexivity.
Qed.

End InvariantFacts.

(** X6. If every item sits in the aisle its [aisle] field names, this
    is still so after a merge, after an update of a checked flag and
    after a removal. *)
Theorem aisle_field_matches_aisle :
  forall s : self,
    aisle_consistent (current_items s) ->
    (forall items preserve_existing,
        aisle_consistent (current_items (organize_by_aisle s items preserve_existing)))
    /\ (forall aisle item_id checked s',
           update_item_status s aisle item_id checked = Ok s' ->
           aisle_consistent (current_items s'))
    /\ (forall aisle item_id,
           aisle_consistent (current_items (remove_item s aisle item_id))).
Proof.
  intros s Hc. split; [|split].
  - intros items p. now apply organize_consistent.
  - intros aisle item_id c s' H.
    destruct (PyDict.get aisle (current_items s)) as [its|] eqn:G.
    + rewrite (update_item_status_present s aisle item_id c G) in H.
      inversion H; subst; clear H. simpl.
      intros a l x Hin Hx. apply PyDictFacts.In_set in Hin.
      destruct Hin as [[-> ->]|Hin]; [|now apply (Hc _ l)].
      apply in_map_iff in Hx. destruct Hx as [y [<- Hy]].
      apply PyDictFacts.get_In in G. apply (Hc _ its y G Hy).
    + unfold update_item_status in H. rewrite G in H. inversion H; subst. exact Hc.
  - intros aisle item_id. now apply remove_item_consistent.
Qed.

Lemma aisle_field_matches_aisle_witness :
  aisle_consistent
    (current_items (organize_by_aisle (agent_of two_aisles) [rope; milk_padded] true)).
Proof.
  assert (Hc : aisle_consistent (current_items (agent_of two_aisles))).
  { intros a its x [H|[H|[]]] Hx; inversion H; subst; simpl in Hx;
      intuition (subst; reflexivity). }
  destruct (@aisle_field_matches_aisle (agent_of two_aisles) Hc) as [Hm _].
  apply Hm.
Defined.

(** X7. The list a merge leaves is in the order of the store layout,
    and a list in that order stays in it through an update of a checked
    flag and through a removal. *)
Theorem canonical_order_is_kept :
  (forall (s : self) items preserve_existing,
      ordered aisle_key (current_items (organize_by_aisle s items preserve_existing)))
  /\ (forall s : self,
         ordered aisle_key (current_items s) ->
         (forall aisle item_id checked s',
             update_item_status s aisle item_id checked = Ok s' ->
             ordered aisle_key (current_items s'))
         /\ (forall aisle item_id,
                ordered aisle_key (current_items (remove_item s aisle item_id)))).
Proof.
  split.
  - intros s items p. rewrite organize_current. apply py_sorted_ordered.
  - intros s Ho. split.
    + intros aisle item_id c s' H.
      destruct (PyDict.get aisle (current_items s)) as [its|] eqn:G.
      * rewrite (update_item_status_present s aisle item_id c G) in H.
        inversion H; subst; clear H. simpl. eapply ordered_set_present; eauto.
      * unfold update_item_status in H. rewrite G in H. inversion H; subst. exact Ho.
    + intros aisle item_id. now apply remove_item_ordered.
Qed.

Lemma canonical_order_is_kept_witness :
  ordered aisle_key (current_items (remove_item (agent_of two_aisles) "Dairy" "1")).
Proof.
  destruct canonical_order_is_kept as [_ H].
  assert (Ho : ordered aisle_key (current_items (agent_of two_aisles))).
  { unfold ordered. simpl. repeat constructor. }
  destruct (H (agent_of two_aisles) Ho) as [_ Hrm]. apply Hrm.
Defined.

(** X8. After a merge the state file holds the list: an agent started
    from that file is the agent the merge left.  The same holds after a
    removal or an update in an aisle that is listed. *)
Theorem restart_restores_agent :
  (forall (s : self) items preserve_existing,
      init (disk (organize_by_aisle s items preserve_existing))
      = Ok (organize_by_aisle s items preserve_existing))
  /\ (forall (s : self) aisle item_id its,
         PyDict.wf (current_items s) ->
         PyDict.get aisle (current_items s) = Some its ->
         init (disk (remove_item s aisle item_id)) = Ok (remove_item s aisle item_id))
  /\ (forall (s : self) aisle item_id checked its,
         PyDict.wf (current_items s) ->
         PyDict.get aisle (current_items s) = Some its ->
         exists s', update_item_status s aisle item_id checked = Ok s'
                    /\ init (disk s') = Ok s').
Proof.
  split; [|split].
  - intros s items p. unfold organize_by_aisle at 1 2.
    apply init_saved. apply (organize_wf s items p).
  - intros s aisle item_id its Hwf G.
    rewrite (remove_item_saved s aisle item_id G).
    apply init_saved. simpl. now apply remove_item_wf.
  - intros s aisle item_id c its Hwf G.
    rewrite (update_item_status_present s aisle item_id c G).
    eexists. split; [reflexivity|].
    apply init_saved. simpl. now apply PyDictFacts.wf_set.
Qed.

Lemma restart_restores_agent_witness :
  init (disk (remove_item (agent_of two_aisles) "Pantry" "3"))
  = Ok (remove_item (agent_of two_aisles) "Pantry" "3").
Proof.
  destruct restart_restores_agent as [_ [H _]].
  apply (H (agent_of two_aisles) "Pantry" "3" [bread]); [wf_dict|reflexivity].
Defined.

(** X9. Removing from a listed aisle leaves the other aisles alone,
    keeps of the aisle the items of another id, in their order, drops the
    aisle name when none is left, leaves the list as it was when no id
    matches and the aisle is not empty, and dumps the list to the state
    file in every case. *)
Theorem remove_item_frame :
  forall (s : self) (aisle item_id : string) (its : list GroceryItem.t),
    PyDict.wf (current_items s) ->
    PyDict.get aisle (current_items s) = Some its ->
    (forall a, a <> aisle ->
               PyDict.get a (current_items (remove_item s aisle item_id))
               = PyDict.get a (current_items s))
    /\ PyDict.get aisle (current_items (remove_item s aisle item_id))
       = match filter (other_id item_id) its with
         | [] => None
         | kept => Some kept
         end
    /\ ((forall x, In x its -> GroceryItem.id x <> item_id) -> its <> [] ->
        current_items (remove_item s aisle item_id) = current_items s)
    /\ disk (remove_item s aisle item_id)
       = Json (state_doc (current_items (remove_item s aisle item_id))).
Proof.
  intros s aisle item_id its Hwf G.
  assert (Hcur := remove_item_present s aisle item_id G).
  fold (other_id item_id) in Hcur.
  split; [|split; [|split]].
  - intros a Hne. rewrite Hcur.
    destruct (filter (other_id item_id) its).
    + rewrite get_del_other by exact Hne. now apply PyDictFacts.get_set_other.
    + now apply PyDictFacts.get_set_other.
  - rewrite Hcur. destruct (filter (other_id item_id) its).
    + apply get_del_same. now apply PyDictFacts.wf_set.
    + apply PyDictFacts.get_set_same.
  - intros Hnone Hne. rewrite Hcur.
    rewrite (@filter_all _ (other_id item_id) its).
    + destruct its; [contradiction|]. now apply PyDictFacts.set_get_id.
    + intros x Hx. unfold other_id. apply Hnone in Hx.
      apply String.eqb_neq in Hx. now rewrite Hx.
  - rewrite (remove_item_saved s aisle item_id G). reflexivity.
Qed.

Lemma remove_item_frame_witness :
  PyDict.get "Dairy" (current_items (remove_item (agent_of two_aisles) "Dairy" "1"))
  = Some [eggs]
  /\ PyDict.get "Pantry" (current_items (remove_item (agent_of two_aisles) "Dairy" "1"))
     = Some [bread].
Proof.
  assert (Hwf : PyDict.wf (current_items (agent_of two_aisles))) by wf_dict.
  destruct (@remove_item_frame (agent_of two_aisles) "Dairy" "1" [milk; eggs] Hwf eq_refl)
    as [Hother [Hsame _]].
  split; [exact Hsame|]. apply Hother. discriminate.
Defined.

(** X10. Removing the same id from the same aisle a second time changes
    nothing. *)
Theorem remove_item_twice :
  forall (s : self) (aisle item_id : string),
    PyDict.wf (current_items s) ->
    remove_item (remove_item s aisle item_id) aisle item_id = remove_item s aisle item_id.
Proof.
  intros s aisle item_id Hwf.
  destruct (PyDict.get aisle (current_items s)) as [its|] eqn:G.
  - assert (Hcur := remove_item_present s aisle item_id G).
    fold (other_id item_id) in Hcur.
    assert (Hsaved := remove_item_saved s aisle item_id G).
    destruct (filter (other_id item_id) its) as [|k kept] eqn:F.
    + assert (Hnone : PyDict.get aisle (current_items (remove_item s aisle item_id)) = None).
      { rewrite Hcur. apply get_del_same. now apply PyDictFacts.wf_set. }
      unfold remove_item at 1. now rewrite Hnone.
    + assert (Hsome : PyDict.get aisle (current_items (remove_item s aisle item_id))
                      = Some (k :: kept)).
      { rewrite Hcur. apply PyDictFacts.get_set_same. }
      assert (Hcur2 := remove_item_present (remove_item s aisle item_id) aisle item_id Hsome).
      fold (other_id item_id) in Hcur2.
      rewrite <- F in Hcur2 at 1. rewrite filter_twice, F in Hcur2.
      rewrite (PyDictFacts.set_get_id _ _ Hsome) in Hcur2.
      rewrite (remove_item_saved (remove_item s aisle item_id) aisle item_id Hsome).
      rewrite Hcur2. rewrite Hsaved at 3. unfold save_state. simpl. reflexivity.
  - unfold remove_item at 2. rewrite G.
    unfold remove_item. now rewrite G.
Qed.

Lemma remove_item_twice_witness :
  remove_item (remove_item (agent_of two_aisles) "Dairy" "2") "Dairy" "2"
  = remove_item (agent_of two_aisles) "Dairy" "2".
Proof.
  apply (@remove_item_twice (agent_of two_aisles) "Dairy" "2"). wf_dict.
Defined.

(** X11. Of two updates of the same id in the same aisle the second
    decides: after an update to one flag, an update to another flag gives
    what that update alone gives; repeating an update changes nothing. *)
Theorem update_item_status_last_wins :
  forall (s s1 : self) (aisle item_id : string) (c c' : bool),
    update_item_status s aisle item_id c = Ok s1 ->
    update_item_status s1 aisle item_id c' = update_item_status s aisle item_id c'
    /\ update_item_status s1 aisle item_id c = Ok s1.
Proof.
  intros s s1 aisle item_id c c' H.
  destruct (PyDict.get aisle (current_items s)) as [its|] eqn:G.
  - rewrite (update_item_status_present s aisle item_id c G) in H.
    inversion H; subst; clear H.
    assert (Hlast : forall b,
               update_item_status
                 (save_state
                    {| current_items :=
                         PyDict.set aisle (map (checked_as item_id c) its) (current_items s);
                       disk := disk s |}) aisle item_id b
               = update_item_status s aisle item_id b).
    { intros b.
      rewrite (update_item_status_present s aisle item_id b G).
      erewrite update_item_status_present
        by (simpl; apply PyDictFacts.get_set_same).
      simpl. rewrite set_set, map_map.
      rewrite (map_ext _ _ (checked_as_twice item_id c b)). reflexivity. }
    split; [apply Hlast|].
    rewrite Hlast. apply (update_item_status_present s aisle item_id c G).
  - unfold update_item_status in H. rewrite G in H. inversion H; subst.
    split; [reflexivity|]. unfold update_item_status. now rewrite G.
Qed.

Lemma update_item_status_last_wins_witness :
  exists s1,
    update_item_status (agent_of two_aisles) "Dairy" "2" true = Ok s1
    /\ update_item_status s1 "Dairy" "2" false
       = update_item_status (agent_of two_aisles) "Dairy" "2" false.
Proof.
  eexists. split; [reflexivity|].
  eapply (proj1 (@update_item_status_last_wins (agent_of two_aisles) _ "Dairy" "2"
                                               true false eq_refl)).
Defined.

(** ** [add_items] *)

Section AddItemsFacts.

Lemma NoDup_map_filter : forall (A B : Type) (f : A -> B) (p : A -> bool) (l : list A),
    NoDup (map f l) -> NoDup (map f (filter p l)).
Proof.
  induction l as [|x l IH]; simpl; intros H; [constructor|].
  inversion H as [|? ? Hnotin H']; subst.
  destruct (p x); simpl; [|now apply IH].
  constructor; [|now apply IH].
  intros Hin. apply Hnotin.
  apply in_map_iff in Hin. destruct Hin as [y [E Hy]].
  apply filter_In in Hy. rewrite <- E. apply in_map. tauto.
Qed.

End AddItemsFacts.

(** X12. [add_items] and the filter of [categorize_items] apply the
    same rule: adding a batch to the items of the current list appends
    exactly the items the filter keeps. *)
Theorem add_items_agrees_with_filter :
  forall (s : self) (items : list GroceryItem.t),
    add_items (all_items (current_items s)) items
    = all_items (current_items s) ++ filter_new s items true.
Proof.
  intros s items. unfold add_items, filter_new.
  rewrite existing_names_all_items. reflexivity.
Qed.

(** X13. Adding a batch with [add_items] a second time adds nothing. *)
Theorem add_items_twice :
  forall current new_items : list GroceryItem.t,
    add_items (add_items current new_items) new_items = add_items current new_items.
Proof.
  intros current new_items. unfold add_items at 1.
  rewrite filter_none; [apply app_nil_r|].
  intros x Hx. apply negb_false_iff. apply py_in_In.
  unfold add_items. rewrite map_app. apply in_or_app.
  destruct (py_in (PyStr.lower (GroceryItem.name x))
                  (map (fun i => PyStr.lower (GroceryItem.name i)) current)) eqn:E.
  - left. now apply py_in_In.
  - right. apply (in_map (fun i => PyStr.lower (GroceryItem.name i))).
    apply filter_In. split; [exact Hx|]. now rewrite E.
Qed.

(** X14. [add_items] keeps lowercased names distinct when they are
    distinct in the current items and distinct in the batch; names that
    repeat inside the batch are not detected. *)
Theorem add_items_names_distinct :
  forall current new_items : list GroceryItem.t,
    NoDup (map name_key current) ->
    NoDup (map name_key new_items) ->
    NoDup (map name_key (add_items current new_items)).
Proof.
  intros current new_items Hc Hn. unfold add_items. rewrite map_app.
  apply NoDup_app.
  - exact Hc.
  - now apply NoDup_map_filter.
  - intros k Hk Hk'.
    apply in_map_iff in Hk'. destruct Hk' as [x [<- Hx]].
    apply filter_In in Hx. destruct Hx as [_ Hx].
    apply negb_true_iff in Hx.
    apply py_in_In in Hk. unfold name_key in Hk. congruence.
Qed.

Lemma add_items_names_distinct_witness :
  NoDup (map name_key (add_items [milk; eggs] [milk_caps; rope])).
Proof.
  apply (@add_items_names_distinct [milk; eggs] [milk_caps; rope]);
    vm_compute; repeat constructor; simpl; intuition discriminate.
Defined.

(** ** Decoding records *)

Section BuildFacts.
Import PyDictFacts.

Lemma validate_str_get : forall v s,
    GroceryItem.validate_str v = Ok s -> v = Some (PStr s).
Proof.
  intros v s H. destruct v as [[| | | | s0 | |]|]; simpl in H; congruence.
Qed.

(** A built item has the id, name and aisle of its record. *)
Lemma of_kwargs_fields : forall d i,
    GroceryItem.of_kwargs d = Ok i ->
    PyDict.get "id" d = Some (PStr (GroceryItem.id i))
    /\ PyDict.get "name" d = Some (PStr (GroceryItem.name i))
    /\ PyDict.get "aisle" d = Some (PStr (GroceryItem.aisle i)).
Proof.
  intros d i. unfold GroceryItem.of_kwargs, bind.
  destruct (GroceryItem.validate_str (PyDict.get "id" d)) eqn:E1; [|discriminate].
  destruct (GroceryItem.validate_str (PyDict.get "name" d)) eqn:E2; [|discriminate].
  destruct (GroceryItem.validate_str (PyDict.get "aisle" d)) eqn:E3; [|discriminate].
  destruct (GroceryItem.validate_opt_str (PyDict.get "quantity" d)); [|discriminate].
  destruct (GroceryItem.validate_opt_str (PyDict.get "quantity_unit" d)); [|discriminate].
  destruct (GroceryItem.validate_bool (PyDict.get "checked" d)); [|discriminate].
  intros H. inversion H; subst; simpl.
  repeat split; now apply validate_str_get.
Qed.

Lemma build_item_spec : forall fresh n v item m,
    build_item fresh n v = Ok (item, m) ->
    built_from fresh v item
    /\ m = (if lacks_id v then S n else n)
    /\ (lacks_id v = true -> GroceryItem.id item = fresh n).
Proof.
  intros fresh n v item m H.
  destruct v as [| | | | | |d]; try discriminate.
  unfold build_item in H. unfold lacks_id.
  destruct (PyDict.contains "id" d) eqn:C; unfold PyDict.contains in C.
  - destruct (PyDict.get "id" d) as [w|] eqn:G; [|discriminate].
    unfold bind in H. destruct (GroceryItem.of_kwargs d) as [i|] eqn:E; [|discriminate].
    inversion H; subst. apply of_kwargs_fields in E. destruct E as [E1 [E2 E3]].
    simpl. split; [|split; [reflexivity|discriminate]].
    exists d. repeat split; try assumption. left. congruence.
  - destruct (PyDict.get "id" d) as [w|] eqn:G; [discriminate|].
    unfold bind in H.
    destruct (GroceryItem.of_kwargs (PyDict.set "id" (PStr (fresh n)) d)) as [i|] eqn:E;
      [|discriminate].
    inversion H; subst. apply of_kwargs_fields in E. destruct E as [E1 [E2 E3]].
    rewrite get_set_same in E1. rewrite get_set_other in E2, E3 by discriminate.
    simpl. split; [|split; [reflexivity|intros _; congruence]].
    exists d. repeat split; try assumption.
    right. split; [exact G|]. exists n. congruence.
Qed.

Lemma NoDup_map_injective : forall (A B : Type) (f : A -> B) (l : list A),
    (forall x y, f x = f y -> x = y) -> NoDup l -> NoDup (map f l).
Proof.
  induction l as [|x l IH]; simpl; intros Hinj H; [constructor|].
  inversion H as [|? ? Hnotin H']; subst.
  constructor; [|now apply IH].
  intros Hin. apply in_map_iff in Hin. destruct Hin as [y [E Hy]].
  apply Hinj in E. now subst.
Qed.

Lemma build_items_dicts : forall fresh n items,
    build_items fresh n (map (fun i => PDict (GroceryItem.dict i)) items) = Ok (items, n).
Proof.
  induction items as [|i items IH]; simpl; [reflexivity|].
  rewrite of_kwargs_dict. simpl. rewrite IH. reflexivity.
Qed.

End BuildFacts.

(** X15. A key that names no field of a grocery item is ignored when an
    item is built from a record. *)
Theorem unknown_key_is_ignored :
  forall (d : PyDict.t pyval) (k : string) (v : pyval),
    ~ In k item_fields ->
    GroceryItem.of_kwargs (PyDict.set k v d) = GroceryItem.of_kwargs d.
Proof.
  intros d k v Hk. unfold GroceryItem.of_kwargs.
  rewrite !PyDictFacts.get_set_other; [reflexivity| | | | | |];
    intros <-; apply Hk; unfold item_fields; simpl; tauto.
Qed.

Lemma unknown_key_is_ignored_witness :
  GroceryItem.of_kwargs (PyDict.set "brand" (PInt 3) (GroceryItem.dict milk)) = Ok milk.
Proof.
  rewrite (@unknown_key_is_ignored (GroceryItem.dict milk) "brand" (PInt 3)).
  - reflexivity.
  - unfold item_fields. simpl. intuition discriminate.
Defined.

(** X16. When the categorization loop succeeds it builds one item per
    record, in order, each with the name and the aisle of its record and
    with the id of its record when it has one.  The records with no id
    receive, in order, the identifiers the supply hands out from the
    counter the loop starts at, one draw each, and the loop ends at the
    counter after the last draw; so when the supply never repeats an
    identifier, these ids are pairwise distinct. *)
Theorem build_items_faithful :
  forall (fresh : nat -> string) (l : list pyval) (n m : nat) (items : list GroceryItem.t),
    build_items fresh n l = Ok (items, m) ->
    Forall2 (built_from fresh) l items
    /\ m = n + drawn l
    /\ map GroceryItem.id (generated l items) = map fresh (seq n (drawn l))
    /\ ((forall i j, fresh i = fresh j -> i = j) ->
        NoDup (map GroceryItem.id (generated l items))).
Proof.
  intros fresh l n m items H.
  assert (Hmain : Forall2 (built_from fresh) l items
                  /\ m = n + drawn l
                  /\ map GroceryItem.id (generated l items) = map fresh (seq n (drawn l))).
  { revert n m items H.
    induction l as [|v l IH]; simpl; intros n m items H.
    - inversion H; subst. split; [constructor|]. split; [unfold drawn; simpl; lia|reflexivity].
    - unfold bind in H.
      destruct (build_item fresh n v) as [[i n1]|] eqn:E1; [|discriminate].
      simpl in H.
      destruct (build_items fresh n1 l) as [[rest n2]|] eqn:E2; [|discriminate].
      inversion H; subst; clear H. simpl.
      apply build_item_spec in E1. destruct E1 as [Hb [Hn Hid]].
      apply IH in E2. destruct E2 as [Hrest [Hm Hgen]].
      split; [now constructor|].
      unfold drawn, generated in *. simpl.
      destruct (lacks_id v) eqn:L; simpl.
      + subst n1. split; [lia|]. rewrite Hid by reflexivity. now rewrite Hgen.
      + subst n1. split; [exact Hm|exact Hgen]. }
  destruct Hmain as [H1 [H2 H3]]. repeat split; try assumption.
  intros Hinj. rewrite H3.
  apply NoDup_map_injective; [exact Hinj|apply seq_NoDup].
Qed.

Lemma build_items_faithful_witness :
  map GroceryItem.id
      (generated [PDict [("name", PStr "Salt"); ("aisle", PStr "Pantry")]; eggs_record]
                 [mk_item (sample_uuid 4) "Salt" "Pantry"; mk_item (sample_uuid 5) "Eggs" "Dairy"])
  = [sample_uuid 4; sample_uuid 5].
Proof.
  apply (proj1 (proj2 (proj2
           (@build_items_faithful sample_uuid
              [PDict [("name", PStr "Salt"); ("aisle", PStr "Pantry")]; eggs_record] 4 6
              [mk_item (sample_uuid 4) "Salt" "Pantry"; mk_item (sample_uuid 5) "Eggs" "Dairy"]
              eq_refl)))).
Defined.

(** X17. The loop of the request layer that assigns identifiers changes
    nothing but empty ids: every item keeps its name, aisle, quantity,
    unit and checked flag, and its id when it has one; and when the supply
    hands out no empty identifier, no item is left with an empty id. *)
Theorem assign_ids_only_fills_empty :
  forall (fresh : nat -> string) (items : list GroceryItem.t) (n : nat),
    Forall2 (id_assigned fresh) items (Main.assign_ids fresh n items)
    /\ ((forall k, fresh k <> EmptyString) ->
        Forall (fun x => GroceryItem.id x <> EmptyString) (Main.assign_ids fresh n items)).
Proof.
  intros fresh.
  induction items as [|i items IH]; simpl; intros n; [split; constructor|].
  destruct (String.eqb_spec (GroceryItem.id i) EmptyString) as [E|Hne].
  - destruct (IH (S n)) as [H1 H2]. split.
    + constructor; [|exact H1].
      unfold id_assigned. simpl. repeat split; [contradiction|]. intros _. now exists n.
    + intros Hf. constructor; [apply Hf|now apply H2].
  - destruct (IH n) as [H1 H2]. split.
    + constructor; [|exact H1].
      unfold id_assigned. repeat split. intros E. contradiction.
    + intros Hf. constructor; [exact Hne|now apply H2].
Qed.

(** X18. An answer of the categorization call that lists items as they
    dump is merged as those items are: the request gives the list that
    merging the filtered items, ids assigned, gives. *)
Theorem merge_categorized_of_dumped_items :
  forall (s : self) (items : list GroceryItem.t) (fresh : nat -> string),
    Main.merge_categorized s (Some (answer_of items)) fresh
    = (organize_by_aisle s (Main.assign_ids fresh 0 (filter_new s items true)) true,
       Ok (current_items
             (organize_by_aisle s (Main.assign_ids fresh 0 (filter_new s items true)) true))).
Proof.
  intros s items fresh.
  unfold Main.merge_categorized, categorize_items, answer_of.
  cbn [subscript_items PyDict.get String.eqb Ascii.eqb Bool.eqb bind py_iter].
  rewrite build_items_dicts. reflexivity.
Qed.

(** X19. Whatever the categorization call answers, a request removes
    and reorders nothing: the list of every aisle of the current list is
    still there afterwards, extended at its end at most. *)
Theorem merge_categorized_keeps_current :
  forall (s : self) (content : option pyval) (fresh : nat -> string)
         (a : string) (its : list GroceryItem.t),
    PyDict.wf (current_items s) ->
    PyDict.get a (current_items s) = Some its ->
    exists added,
      PyDict.get a (current_items (fst (Main.merge_categorized s content fresh)))
      = Some (its ++ added).
Proof.
  intros s content fresh a its Hwf G.
  unfold Main.merge_categorized.
  destruct (categorize_items s content fresh 0 true) as [[grocery_items n]|e].
  - cbn [fst].
    destruct (@fold_add_extends (Main.assign_ids fresh n grocery_items)
                                (current_items s) a its G) as [added [G' _]].
    exists added. rewrite organize_current. unfold organized_items.
    rewrite copy_current_id by exact Hwf.
    rewrite <- G'. apply PyDictFacts.get_Permutation.
    + now apply fold_add_wf.
    + symmetry. apply py_sorted_perm.
  - exists []. rewrite app_nil_r. exact G.
Qed.

Lemma merge_categorized_keeps_current_witness :
  exists added,
    PyDict.get "Dairy"
               (current_items (fst (Main.merge_categorized (agent_of two_aisles)
                                                           (Some (answer_of [milk_padded; rope]))
                                                           sample_uuid)))
    = Some ([milk; eggs] ++ added).
Proof.
  apply (@merge_categorized_keeps_current (agent_of two_aisles)
           (Some (answer_of [milk_padded; rope])) sample_uuid "Dairy" [milk; eggs]).
  - wf_dict.
  - reflexivity.
Defined.

(** ** The conversation, the parser and the endpoints *)

Section ApiFacts.

Lemma exchanges_snoc : forall n, exchanges n ++ ["user"; "assistant"] = exchanges (S n).
Proof.
  induction n as [|n IH]; [reflexivity|].
  change (exchanges (S n)) with ("user" :: "assistant" :: exchanges n).
  simpl app. rewrite IH. reflexivity.
Qed.

Lemma mapM_raises_In : forall (A B : Type) (f : A -> result B) (l : list A) (v : A),
    In v l -> (exists e, f v = Raise e) -> exists e, mapM f l = Raise e.
Proof.
  induction l as [|w l IH]; simpl; intros v Hin Hv; [contradiction|].
  destruct Hin as [->|Hin].
  - destruct Hv as [e He]. rewrite He. now exists e.
  - destruct (f w) as [b|e]; simpl; [|now exists e].
    destruct (IH v Hin Hv) as [e He]. rewrite He. now exists e.
Qed.

Lemma ingredient_of_kwargs_dict : forall i, Ingredient.of_kwargs (Ingredient.dict i) = Ok i.
Proof.
  intros [n q u a]. unfold Ingredient.of_kwargs, Ingredient.dict. simpl.
  destruct u, a; reflexivity.
Qed.

Lemma mapM_ingredient_new : forall l,
    mapM Ingredient.new (map (fun i => PDict (Ingredient.dict i)) l) = Ok l.
Proof.
  induction l as [|i l IH]; simpl; [reflexivity|].
  rewrite ingredient_of_kwargs_dict. simpl. rewrite IH. reflexivity.
Qed.

Lemma mapM_validate_ingredient : forall l,
    mapM Recipe.validate_ingredient (map (fun i => PDict (Ingredient.dict i)) l) = Ok l.
Proof.
  induction l as [|i l IH]; simpl; [reflexivity|].
  rewrite ingredient_of_kwargs_dict. simpl. rewrite IH. reflexivity.
Qed.

Lemma mapM_validate_line : forall lines,
    mapM Recipe.validate_line (map PStr lines) = Ok lines.
Proof.
  induction lines as [|x lines IH]; simpl; [reflexivity|].
  rewrite IH. reflexivity.
Qed.

Lemma recipe_of_kwargs_dict : forall r, Recipe.of_kwargs (Recipe.dict r) = Ok r.
Proof.
  intros [n i s]. unfold Recipe.of_kwargs, Recipe.dict. simpl.
  rewrite mapM_validate_ingredient. simpl.
  destruct s as [lines|]; simpl; [|reflexivity].
  rewrite mapM_validate_line. reflexivity.
Qed.

Lemma mapM_recipe_new : forall l,
    mapM Recipe.new (map (fun r => PDict (Recipe.dict r)) l) = Ok l.
Proof.
  induction l as [|r l IH]; simpl; [reflexivity|].
  rewrite recipe_of_kwargs_dict. simpl. rewrite IH. reflexivity.
Qed.

Lemma ingredient_of_kwargs_ok : forall d i,
    Ingredient.of_kwargs d = Ok i ->
    has_str "name" (PDict d) = true /\ has_str "quantity" (PDict d) = true.
Proof.
  intros d i. unfold Ingredient.of_kwargs, bind.
  destruct (GroceryItem.validate_str (PyDict.get "name" d)) eqn:E1; [|discriminate].
  destruct (GroceryItem.validate_str (PyDict.get "quantity" d)) eqn:E2; [|discriminate].
  intros _. split; eapply validate_str_ok; eauto.
Qed.

Lemma ingredient_new_unusable : forall v,
    has_str "name" v = false \/ has_str "quantity" v = false ->
    exists e, Ingredient.new v = Raise e.
Proof.
  intros v H. destruct v as [| | | | | |d]; try (exists TypeError; reflexivity).
  simpl. destruct (Ingredient.of_kwargs d) as [i|e] eqn:E; [|now exists e].
  apply ingredient_of_kwargs_ok in E. destruct E as [E1 E2].
  destruct H as [H|H]; congruence.
Qed.

Lemma merge_categorized_outcome : forall s content fresh s' out,
    Main.merge_categorized s content fresh = (s', out) ->
    match out with
    | Ok organized => organized = current_items s' /\ init (disk s') = Ok s'
    | Raise _ => s' = s
    end.
Proof.
  intros s content fresh s' out H. unfold Main.merge_categorized in H.
  destruct (categorize_items s content fresh 0 true) as [[grocery_items n]|e].
  - inversion H; subst; clear H. split; [reflexivity|].
    unfold organize_by_aisle at 1 2. apply init_saved. apply organize_wf.
  - inversion H; subst. reflexivity.
Qed.

End ApiFacts.

(** X20. A successful call of [process_user_input] appends the user
    message and the answer, in this order, so a history made of complete
    exchanges stays one; a failing call leaves the user message in the
    history, with no answer after it. *)
Theorem conversation_history_grows :
  forall (s s' : ConversationManager.self) (user_input : string)
         (groq : list ConversationManager.Message -> result string)
         (out : result ConversationManager.reply),
    ConversationManager.process_user_input s user_input groq = (s', out) ->
    match out with
    | Ok r =>
        ConversationManager.conversation_history s'
        = ConversationManager.conversation_history s
            ++ [ {| ConversationManager.role := "user";
                    ConversationManager.content := user_input |};
                 {| ConversationManager.role := "assistant";
                    ConversationManager.content := ConversationManager.response r |} ]
        /\ (forall n,
               map ConversationManager.role (ConversationManager.conversation_history s)
               = exchanges n ->
               map ConversationManager.role (ConversationManager.conversation_history s')
               = exchanges (S n))
    | Raise _ =>
        ConversationManager.conversation_history s'
        = ConversationManager.conversation_history s
            ++ [ {| ConversationManager.role := "user";
                    ConversationManager.content := user_input |} ]
    end.
Proof.
  intros s s' user_input groq out H.
  unfold ConversationManager.process_user_input in H.
  destruct (groq _) as [a|e]; inversion H; subst; clear H; simpl.
  - rewrite <- app_assoc. simpl. split; [reflexivity|].
    intros n Hn. rewrite map_app, Hn. simpl. apply exchanges_snoc.
  - reflexivity.
Qed.

Lemma conversation_history_grows_witness :
  map ConversationManager.role
      (ConversationManager.conversation_history
         (fst (ConversationManager.process_user_input
                 ConversationManager.init "add milk" (fun _ => Ok "Done."))))
  = exchanges 1.
Proof.
  apply (proj2 (@conversation_history_grows
                  ConversationManager.init _ "add milk" (fun _ => Ok "Done.") _ eq_refl) 0).
  reflexivity.
Defined.

(** X21. The parser reads back what its models dump: a list of
    ingredients, a recipe and a list of recipes decode to themselves,
    optional fields left null included. *)
Theorem parser_reads_dumped_models :
  (forall l : list Ingredient.t,
      IngredientsParserAgent.parse_natural_language_items
        (Some (PDict [("ingredients", PList (map (fun i => PDict (Ingredient.dict i)) l))]))
      = Ok l)
  /\ (forall r : Recipe.t,
         IngredientsParserAgent.parse_meal_to_ingredients (Some (PDict (Recipe.dict r)))
         = Ok r)
  /\ (forall l : list Recipe.t,
         IngredientsParserAgent.suggest_recipes
           (Some (PDict [("recipes", PList (map (fun r => PDict (Recipe.dict r)) l))]))
         = Ok l).
Proof.
  split; [|split].
  - intros l. unfold IngredientsParserAgent.parse_natural_language_items. simpl.
    apply mapM_ingredient_new.
  - intros r. simpl. apply recipe_of_kwargs_dict.
  - intros l. unfold IngredientsParserAgent.suggest_recipes. simpl.
    apply mapM_recipe_new.
Qed.

(** X22. An ingredient record whose name or quantity is absent or is
    not a string (a number, say) makes [parse_natural_language_items]
    fail as a whole: no ingredient of the answer is returned. *)
Theorem unusable_ingredient_rejects_answer :
  forall (d : PyDict.t pyval) (raw : pyval) (elems : list pyval) (v : pyval),
    PyDict.get "ingredients" d = Some raw ->
    py_iter raw = Ok elems ->
    In v elems ->
    has_str "name" v = false \/ has_str "quantity" v = false ->
    exists e, IngredientsParserAgent.parse_natural_language_items (Some (PDict d)) = Raise e.
Proof.
  intros d raw elems v Hd Hraw Hin Hbad.
  unfold IngredientsParserAgent.parse_natural_language_items. simpl.
  rewrite Hd. simpl. rewrite Hraw. simpl.
  apply (@mapM_raises_In _ _ Ingredient.new elems v Hin).
  now apply ingredient_new_unusable.
Qed.

Lemma unusable_ingredient_rejects_answer_witness :
  exists e,
    IngredientsParserAgent.parse_natural_language_items
      (Some (PDict [("ingredients",
                     PList [PDict [("name", PStr "Eggs"); ("quantity", PInt 12)]])]))
    = Raise e.
Proof.
  apply (@unusable_ingredient_rejects_answer
           _ (PList [PDict [("name", PStr "Eggs"); ("quantity", PInt 12)]])
           [PDict [("name", PStr "Eggs"); ("quantity", PInt 12)]]
           (PDict [("name", PStr "Eggs"); ("quantity", PInt 12)])).
  - reflexivity.
  - reflexivity.
  - now left.
  - right. reflexivity.
Defined.

(** X23. The calls to the model come before the list is touched: when
    the conversation call, the parsing of the ingredients or the building
    of the categorized items fails, the message request reports the error
    and leaves the list agent as it was, and so does the recipe request
    when the parsing of the recipe or the building of the items fails.
    When these steps all succeed, the request returns the list of the
    agent and, the write of the state file being taken to succeed, the
    file holds that list. *)
Theorem failed_call_leaves_list :
  (forall (st : Api.app) (message : string)
          (groq : list ConversationManager.Message -> result string)
          (parsed categorized : option pyval) (fresh : nat -> string),
      (is_ok (snd (ConversationManager.process_user_input
                     (Api.conversation_manager st) message groq)) = false
       \/ is_ok (IngredientsParserAgent.parse_natural_language_items parsed) = false
       \/ is_ok (categorize_items (Api.list_organizer st) categorized fresh 0 true) = false) ->
      Api.list_organizer (fst (Api.process_message st message groq parsed categorized fresh))
      = Api.list_organizer st
      /\ is_ok (snd (Api.process_message st message groq parsed categorized fresh)) = false)
  /\ (forall (st : Api.app) (message : string)
             (groq : list ConversationManager.Message -> result string)
             (parsed categorized : option pyval) (fresh : nat -> string),
         is_ok (snd (ConversationManager.process_user_input
                       (Api.conversation_manager st) message groq)) = true ->
         is_ok (IngredientsParserAgent.parse_natural_language_items parsed) = true ->
         is_ok (categorize_items (Api.list_organizer st) categorized fresh 0 true) = true ->
         exists resp,
           snd (Api.process_message st message groq parsed categorized fresh) = Ok resp
           /\ Api.updated_list resp
              = current_items
                  (Api.list_organizer
                     (fst (Api.process_message st message groq parsed categorized fresh)))
           /\ init (disk (Api.list_organizer
                            (fst (Api.process_message st message groq parsed categorized
                                                      fresh))))
              = Ok (Api.list_organizer
                      (fst (Api.process_message st message groq parsed categorized fresh))))
  /\ (forall (st : Api.app) (recipe categorized : option pyval) (fresh : nat -> string),
         (is_ok (IngredientsParserAgent.parse_meal_to_ingredients recipe) = false
          \/ is_ok (categorize_items (Api.list_organizer st) categorized fresh 0 true) = false) ->
         Api.list_organizer (fst (Api.add_recipe st recipe categorized fresh))
         = Api.list_organizer st
         /\ is_ok (snd (Api.add_recipe st recipe categorized fresh)) = false)
  /\ (forall (st : Api.app) (recipe categorized : option pyval) (fresh : nat -> string),
         is_ok (IngredientsParserAgent.parse_meal_to_ingredients recipe) = true ->
         is_ok (categorize_items (Api.list_organizer st) categorized fresh 0 true) = true ->
         exists organized,
           snd (Api.add_recipe st recipe categorized fresh) = Ok organized
           /\ organized
              = current_items (Api.list_organizer (fst (Api.add_recipe st recipe categorized fresh)))
           /\ init (disk (Api.list_organizer (fst (Api.add_recipe st recipe categorized fresh))))
              = Ok (Api.list_organizer (fst (Api.add_recipe st recipe categorized fresh)))).
Proof.
  split; [|split; [|split]].
  - intros st message groq parsed categorized fresh H.
    unfold Api.process_message, Main.merge_categorized.
    destruct (ConversationManager.process_user_input _ message groq) as [cm [reply|e]];
      [|now split].
    destruct (IngredientsParserAgent.parse_natural_language_items parsed) as [ing|e];
      [|now split].
    destruct (categorize_items (Api.list_organizer st) categorized fresh 0 true)
      as [[grocery_items n]|e]; [|now split].
    simpl in H. destruct H as [H|[H|H]]; discriminate.
  - intros st message groq parsed categorized fresh H1 H2 H3.
    unfold Api.process_message, Main.merge_categorized.
    destruct (ConversationManager.process_user_input _ message groq) as [cm [reply|e]];
      [|discriminate].
    destruct (IngredientsParserAgent.parse_natural_language_items parsed) as [ing|e];
      [|discriminate].
    destruct (categorize_items (Api.list_organizer st) categorized fresh 0 true)
      as [[grocery_items n]|e]; [|discriminate].
    eexists. split; [reflexivity|]. split; [reflexivity|].
    cbn [fst Api.list_organizer]. unfold organize_by_aisle at 1 2.
    apply init_saved. apply organize_wf.
  - intros st recipe categorized fresh H.
    unfold Api.add_recipe, Main.merge_categorized.
    destruct (IngredientsParserAgent.parse_meal_to_ingredients recipe) as [r|e];
      [|now split].
    destruct (categorize_items (Api.list_organizer st) categorized fresh 0 true)
      as [[grocery_items n]|e]; [|now split].
    simpl in H. destruct H as [H|H]; discriminate.
  - intros st recipe categorized fresh H1 H2.
    unfold Api.add_recipe, Main.merge_categorized.
    destruct (IngredientsParserAgent.parse_meal_to_ingredients recipe) as [r|e];
      [|discriminate].
    destruct (categorize_items (Api.list_organizer st) categorized fresh 0 true)
      as [[grocery_items n]|e]; [|discriminate].
    eexists. split; [reflexivity|]. split; [reflexivity|].
    cbn [fst Api.list_organizer]. unfold organize_by_aisle at 1 2.
    apply init_saved. apply organize_wf.
Qed.

Lemma failed_call_leaves_list_witness :
  Api.list_organizer
    (fst (Api.add_recipe {| Api.conversation_manager := ConversationManager.init;
                            Api.list_organizer := agent_of two_aisles |}
                         (Some (PDict [("name", PStr "Omelette"); ("ingredients", PList [])]))
                         (Some mixed_answer) sample_uuid))
  = agent_of two_aisles.
Proof.
  apply (proj1 (proj2 (proj2 failed_call_leaves_list))
               {| Api.conversation_manager := ConversationManager.init;
                  Api.list_organizer := agent_of two_aisles |}
               (Some (PDict [("name", PStr "Omelette"); ("ingredients", PList [])]))
               (Some mixed_answer) sample_uuid).
  right. reflexivity.
Defined.

(** ** Edge cases of the merge *)

(** X24. An empty batch: with [preserve_existing] set, a list that is
    in sequence is left as it is; with [preserve_existing] unset, the
    list is emptied.  Both write the state file. *)
Theorem merge_of_empty_batch :
  forall s : self,
    (PyDict.wf (current_items s) -> ordered aisle_key (current_items s) ->
     current_items (organize_by_aisle s [] true) = current_items s)
    /\ current_items (organize_by_aisle s [] false) = []
    /\ disk (organize_by_aisle s [] false) = Json (PDict [("items", PDict [])])
    /\ load_state (disk (organize_by_aisle s [] false)) = Ok [].
Proof.
  intros s. split; [|repeat split].
  intros Hwf Ho. rewrite organize_current. unfold organized_items. simpl.
  rewrite copy_current_id by exact Hwf. now apply py_sorted_fixed.
Qed.

Lemma merge_of_empty_batch_witness :
  current_items (organize_by_aisle (agent_of two_aisles) [] true) = two_aisles.
Proof.
  apply (proj1 (@merge_of_empty_batch (agent_of two_aisles))).
  - wf_dict.
  - unfold ordered. simpl. repeat constructor.
Defined.

(** X25. No incoming name is lost: when the names of the current and
    of the incoming items are made of ASCII characters, the list holds
    after a merge, in either mode, an item with the lowercased name of
    every incoming item. *)
Theorem merge_covers_incoming_names :
  forall (s : self) (items : list GroceryItem.t) (preserve_existing : bool)
         (y : GroceryItem.t),
    ascii_names (current_items s) ->
    (forall x, In x items -> ascii_item x) ->
    In y items ->
    exists e,
      In e (all_items (current_items (organize_by_aisle s items preserve_existing)))
      /\ PyStr.lower (GroceryItem.name e) = PyStr.lower (GroceryItem.name y).
Proof.
  intros s items p y _ _ Hy.
  assert (H := organized_seen s items p y Hy).
  apply item_exists_iff in H. destruct H as [e [He Hk]].
  exists e. split; [|exact Hk].
  eapply Permutation_in; [symmetry; apply organize_all_items|exact He].
Qed.

Lemma merge_covers_incoming_names_witness :
  exists e,
    In e (all_items (current_items (organize_by_aisle (agent_of two_aisles)
                                                      [rope; milk_caps] true)))
    /\ PyStr.lower (GroceryItem.name e) = PyStr.lower (GroceryItem.name milk_caps).
Proof.
  apply (@merge_covers_incoming_names (agent_of two_aisles) [rope; milk_caps] true milk_caps).
  - intros x Hx. simpl in Hx. intuition (subst; reflexivity).
  - intros x Hx. simpl in Hx. intuition (subst; reflexivity).
  - right. now left.
Defined.
